(** * SRF2019 scraper: the text-extraction pipeline of [scraper.py]

    A shallow embedding of the session/paper extraction code of
    [SRF2019Scraper] and the properties its specification states about it.

    Modelling conventions.
    - A Python [str] is a [string]; each character stands for the code point
      of the same number, so the model covers text whose code points are
      below 256.  On that range the regular-expression class [\d] is
      ['0'..'9'], [\s] and [str.strip] use the white space listed in
      [is_space], and [str.lower] is [lower_char].
    - A [dict] with a fixed set of keys is a record; HTTP response headers
      are a [gmap] from lower-cased header names to values.
    - The network is explicit state: a [HEAD] request takes the world and
      returns an outcome (a response, or a raised exception) and the next
      world.
    - Logging and the debug dump of the page text are not modelled. *)

From Stdlib Require Import ZArith Ascii.
From Stdlib Require String.
From stdpp Require Import base option list strings gmap sorting.

(** ** Characters *)

Definition code (c : ascii) : N := N_of_ascii c.

(** [\d] *)
Definition is_digit (c : ascii) : bool :=
  ((48 <=? code c) && (code c <=? 57))%N.

(** [[A-Z]] *)
Definition is_upper_AZ (c : ascii) : bool :=
  ((65 <=? code c) && (code c <=? 90))%N.

(** [\s], and the characters [str.strip()] removes *)
Definition is_space (c : ascii) : bool :=
  let n := code c in
  (((9 <=? n) && (n <=? 13)) || ((28 <=? n) && (n <=? 32))
   || (n =? 133) || (n =? 160))%N.

(** [str.lower()] on one character *)
Definition lower_char (c : ascii) : ascii :=
  let n := code c in
  if ((65 <=? n) && (n <=? 90))%N then ascii_of_N (n + 32)
  else if ((192 <=? n) && (n <=? 222) && negb (n =? 215))%N
       then ascii_of_N (n + 32)
  else c.

Arguments is_digit : simpl never.
Arguments is_upper_AZ : simpl never.
Arguments is_space : simpl never.
Arguments lower_char : simpl never.

(** ** Strings: the [str] operations the scraper uses *)

Module Str.

(** [s[n:]] *)
Fixpoint skip (n : nat) (s : string) : string :=
  match n, s with
  | O, _ => s
  | S _, "" => ""
  | S k, String _ s' => skip k s'
  end.

(** [s[:n]] *)
Fixpoint keep (n : nat) (s : string) : string :=
  match n, s with
  | O, _ => ""
  | S _, "" => ""
  | S k, String c s' => String c (keep k s')
  end.

Fixpoint map (f : ascii → ascii) (s : string) : string :=
  match s with
  | "" => ""
  | String c s' => String (f c) (map f s')
  end.

Fixpoint forallb (p : ascii → bool) (s : string) : bool :=
  match s with
  | "" => true
  | String c s' => p c && forallb p s'
  end.

(** the longest prefix of characters satisfying [p] (a greedy [p*]) *)
Fixpoint span (p : ascii → bool) (s : string) : string :=
  match s with
  | "" => ""
  | String c s' => if p c then String c (span p s') else ""
  end.

(** [s.lstrip()] *)
Fixpoint lstrip (s : string) : string :=
  match s with
  | "" => ""
  | String c s' => if is_space c then lstrip s' else s
  end.

(** [s.rstrip()]: the same, from the right end *)
Fixpoint rstrip (s : string) : string :=
  match s with
  | "" => ""
  | String c s' =>
      match rstrip s' with
      | "" => if is_space c then "" else String c ""
      | r => String c r
      end
  end.

(** [s.strip()] *)
Definition strip (s : string) : string := rstrip (lstrip s).

(** [s.lower()] *)
Definition lower (s : string) : string := map lower_char s.

(** [s.startswith(p)] *)
Definition startswith (s p : string) : bool := String.prefix p s.

(** A leftmost search, as [re.search] and [str.find] do it.  The pattern is
    given by its matcher at the head of a string: [m s] is the length of
    the match that starts at the head of [s].  The result is the first
    position where the pattern matches, as [(start, end)]; the position at
    the end of the string is tried too. *)
Fixpoint search (m : string → option nat) (s : string)
  : option (nat * nat) :=
  match m s with
  | Some n => Some (0, n)
  | None =>
      match s with
      | "" => None
      | String _ s' => prod_map S S <$> search m s'
      end
  end.

(** the literal text [sub] at the head of [s] *)
Definition match_literal (sub s : string) : option nat :=
  if String.prefix sub s then Some (String.length sub) else None.

(** [s.find(sub)], with [-1] when [sub] does not occur *)
Definition find (s sub : string) : Z :=
  match search (match_literal sub) s with
  | Some (i, _) => Z.of_nat i
  | None => (-1)%Z
  end.

(** [sub in s] *)
Definition contains (sub s : string) : bool :=
  bool_decide (find s sub ≠ (-1)%Z).

(** [s.split(sep)] for a one-character separator: the pieces between
    the separators, empty pieces included; always at least one piece. *)
Fixpoint split_go (sep : ascii) (cur : string) (s : string) : list string :=
  match s with
  | "" => [String.rev cur]
  | String c s' =>
      if Ascii.eqb c sep then String.rev cur :: split_go sep "" s'
      else split_go sep (String c cur) s'
  end.
Definition split (sep : ascii) (s : string) : list string :=
  split_go sep "" s.

(** [bool(s)]: a string is truthy when it is not empty *)
Definition truthy (s : string) : bool :=
  match s with "" => false | _ => true end.

(** [sep.join(ls)] *)
Definition join (sep : string) (ls : list string) : string :=
  String.concat sep ls.

End Str.

(** ** The Text Segmenter: [extract_papers_from_session], lines 227-235 *)

(** One attempt of the pattern [re.escape(session_id) + r'(\d+)'] at the
    head of [s]: the captured digits when it matches. *)
Definition match_paper_pattern (session_id s : string) : option string :=
  if String.prefix session_id s then
    let digits := Str.span is_digit (Str.skip (String.length session_id) s) in
    if Str.truthy digits then Some digits else None
  else None.

(** [re.findall(paper_pattern, page_text)]: the scan tries the pattern at
    each position from left to right and resumes at the end of a match.
    [inside] counts the characters of the current match still to pass. *)
Fixpoint findall_go (session_id : string) (inside : nat) (s : string)
  : list string :=
  match s with
  | "" => []
  | String _ s' =>
      match inside with
      | S k => findall_go session_id k s'
      | O =>
          match match_paper_pattern session_id s with
          | Some digits =>
              digits ::
              findall_go session_id
                (String.length session_id + String.length digits - 1) s'
          | None => findall_go session_id 0 s'
          end
      end
  end.

Definition findall_paper_pattern (session_id page_text : string)
  : list string :=
  findall_go session_id 0 page_text.

(** [sorted(list(set(paper_matches)))]: the set is a [gset], whose order of
    enumeration is unspecified as in Python; [sorted] compares strings by
    code points, which is [String.le]. *)
Definition paper_nums (session_id page_text : string) : list string :=
  let paper_matches := findall_paper_pattern session_id page_text in
  merge_sort String.le (elements (list_to_set paper_matches : gset string)).

(** ** The Paper Field Extractor: [extract_paper_details_from_page] *)

(** The pattern of line 280 at the head of [s]: the escaped identifier,
    then [\s*], then a group [\d*].  Both stars are greedy and nothing
    follows them, so the match takes the whole run of white space and then
    the whole run of digits. *)
Definition match_paper_id (paper_id s : string) : option nat :=
  if String.prefix paper_id s then
    let after_id := Str.skip (String.length paper_id) s in
    let spaces := Str.span is_space after_id in
    let digits := Str.span is_digit (Str.skip (String.length spaces) after_id) in
    Some (String.length paper_id + String.length spaces + String.length digits)
  else None.

(** [r'[A-Z]{5}\d+'] at the head of [s] *)
Definition match_next_paper (s : string) : option nat :=
  let letters := Str.keep 5 s in
  let digits := Str.span is_digit (Str.skip 5 s) in
  if Nat.eqb (String.length letters) 5 && Str.forallb is_upper_AZ letters
     && Str.truthy digits
  then Some (5 + String.length digits)
  else None.

Definition end_markers : list string :=
  ["DOI:"; "Received:"; "Accepted:"; "Paper:"; "Cite:"; "Export:"].

(** Lines 293-306: the text of the paper's section, cut out of the text
    that follows the paper identifier. *)
Definition paper_content_of (remaining_text : string) : string :=
  match Str.search match_next_paper remaining_text with
  | Some (next_start, _) => Str.keep next_start remaining_text
  | None =>
      let min_end :=
        foldl (λ (min_end : Z) marker,
                 let marker_pos := Str.find remaining_text marker in
                 if bool_decide (marker_pos ≠ -1)
                    && bool_decide (marker_pos < min_end)
                 then marker_pos else min_end)%Z
              (Z.of_nat (String.length remaining_text)) end_markers in
      if bool_decide (min_end < Z.of_nat (String.length remaining_text))%Z
      then Str.keep (Z.to_nat min_end) remaining_text
      else remaining_text
  end.

(** Line 309: the stripped, non-empty lines of the section *)
Definition content_lines (paper_content : string) : list string :=
  Str.strip <$>
    filter (λ line, Str.truthy (Str.strip line)) (Str.split "010"%char paper_content).

(** [re.match(r'^\d{1,3}$', line)]: one to three digits, then the end of
    the string or a single newline that ends the string. *)
Definition match_page_number (line : string) : bool :=
  let digits := Str.span is_digit (Str.keep 3 line) in
  let rest := Str.skip (String.length digits) line in
  Str.truthy digits && (String.eqb rest "" || String.eqb rest (String "010"%char "")).

(** Lines 317-320: the loop stops at the first line that matches. *)
Fixpoint find_page_number (lines : list string) : option string :=
  match lines with
  | [] => None
  | line :: lines' =>
      if match_page_number line then Some line else find_page_number lines'
  end.

Definition author_stop_keywords : list string :=
  ["funding"; "doi"; "received"; "accepted"].

Definition institution_keywords : list string :=
  ["University"; "Laboratory"; "Institute"; "Center"; "Corporation";
   "School"; "Facility"; "National"; "Synchrotron"; "KEK"; "FRIB"; "LBNL";
   "DESY"; "SLAC"; "CERN"; "Jefferson Lab"; "Argonne"].

Definition abstract_stop_prefixes : list string :=
  ["Funding:"; "DOI:"; "Received:"; "Accepted:"].

(** The condition of line 335 *)
Definition is_author_line (line : string) : bool :=
  Str.contains "," line
  && Nat.ltb 1 (length (Str.split ","%char line))
  && negb (existsb (λ keyword, Str.contains keyword (Str.lower line))
             author_stop_keywords).

(** The condition of lines 338-340 *)
Definition is_institution_line (line : string) : bool :=
  existsb (λ keyword, Str.contains keyword line) institution_keywords.

(** The condition of line 343 *)
Definition is_abstract_line (line : string) : bool :=
  Nat.ltb 20 (String.length line)
  && negb (existsb (Str.startswith line) abstract_stop_prefixes).

(** The three lists the loop of lines 329-344 fills *)
Record line_lists := {
  author_lines : list string;
  institution_lines : list string;
  abstract_lines : list string
}.

(** One turn of the loop of lines 329-344 *)
Definition classify_line (title page_number : string)
    (acc : line_lists) (line : string) : line_lists :=
  if String.eqb line title || String.eqb line page_number then acc
  else if is_author_line line then
    {| author_lines := author_lines acc ++ [line];
       institution_lines := institution_lines acc;
       abstract_lines := abstract_lines acc |}
  else if is_institution_line line then
    {| author_lines := author_lines acc;
       institution_lines := institution_lines acc ++ [line];
       abstract_lines := abstract_lines acc |}
  else if is_abstract_line line then
    {| author_lines := author_lines acc;
       institution_lines := institution_lines acc;
       abstract_lines := abstract_lines acc ++ [line] |}
  else acc.

Definition classify_lines (title page_number : string) (lines : list string)
  : line_lists :=
  foldl (classify_line title page_number)
        {| author_lines := []; institution_lines := []; abstract_lines := [] |}
        lines.

(** Line 351: the stripped, non-empty pieces of one author line *)
Definition split_authors (author_line : string) : list string :=
  Str.strip <$>
    filter (λ a, Str.truthy (Str.strip a)) (Str.split ","%char author_line).

(** Lines 347-353 *)
Definition process_authors (author_lines : list string) : list string :=
  match author_lines with
  | [] => []
  | _ => foldl (λ all_authors author_line,
                  all_authors ++ split_authors author_line) [] author_lines
  end.

(** The record behind the [paper_info] dictionary *)
Record paper_info := {
  paper_id : string;
  title : string;
  authors : list string;
  institutions : list string;
  abstract : string;
  presentation_url : string;
  paper_url : string;
  poster_url : string;
  doi : string;
  page_number : string;
  presentation_available : bool;
  paper_available : bool;
  poster_available : bool
}.

(** Lines 260-274 *)
Definition initial_paper_info (paper_id : string) : paper_info :=
  {| paper_id := paper_id;
     title := "";
     authors := [];
     institutions := [];
     abstract := "";
     presentation_url :=
       "https://proceedings.jacow.org/srf2019/talks/"
         +:+ Str.lower paper_id +:+ "_talk.pdf";
     paper_url :=
       "https://proceedings.jacow.org/srf2019/papers/"
         +:+ Str.lower paper_id +:+ ".pdf";
     poster_url :=
       "https://proceedings.jacow.org/srf2019/posters/"
         +:+ Str.lower paper_id +:+ "_poster.pdf";
     doi := "https://doi.org/10.18429/JACoW-SRF2019-" +:+ paper_id;
     page_number := "";
     presentation_available := false;
     paper_available := false;
     poster_available := false |}.

(** Lines 280-309: the lines of the paper's section, or [None] when the
    identifier is not found in the page text. *)
Definition section_lines (page_text paper_id : string) : option (list string) :=
  match Str.search (match_paper_id paper_id) page_text with
  | None => None
  | Some (_, start_pos) =>
      let remaining_text := Str.skip start_pos page_text in
      Some (content_lines (paper_content_of remaining_text))
  end.

(** Lines 311-361: the textual fields, from the lines of the section *)
Definition fill_text_fields (info : paper_info) (lines : list string)
  : paper_info :=
  let new_title := match lines with line :: _ => line | [] => title info end in
  let new_page_number :=
    from_option id (page_number info) (find_page_number lines) in
  let lists := classify_lines new_title new_page_number lines in
  {| paper_id := paper_id info;
     title := new_title;
     authors :=
       match author_lines lists with
       | [] => authors info
       | _ => process_authors (author_lines lists)
       end;
     institutions :=
       match institution_lines lists with
       | [] => institutions info
       | _ => institution_lines lists
       end;
     abstract :=
       match abstract_lines lists with
       | [] => abstract info
       | _ => Str.join " " (abstract_lines lists)
       end;
     presentation_url := presentation_url info;
     paper_url := paper_url info;
     poster_url := poster_url info;
     doi := doi info;
     page_number := new_page_number;
     presentation_available := presentation_available info;
     paper_available := paper_available info;
     poster_available := poster_available info |}.

(** ** The network *)

(** What a call that may raise gives back *)
Inductive outcome (A : Type) :=
  | Returned (a : A)
  | Raised.
Arguments Returned {A} a.
Arguments Raised {A}.

(** A response to a [HEAD] request; the header names are kept lower-cased,
    which is how the case-insensitive [response.headers] looks them up. *)
Record response := {
  status_code : Z;
  headers : gmap string string
}.

(** [response.headers.get(name, default)] *)
Definition headers_get (r : response) (name default : string) : string :=
  from_option id default (headers r !! Str.lower name).

Section Network.

Context {World : Type}.

(** [self.session.head(pdf_url, timeout=10)] *)
Variable head : string → World → outcome response * World.

(** Lines 380-384: the bare [except] turns every exception into [False]. *)
Definition check_pdf_exists (pdf_url : string) (w : World) : bool * World :=
  match head pdf_url w with
  | (Returned response, w') =>
      (bool_decide (status_code response = 200%Z)
       && Str.contains "pdf"
            (Str.lower (headers_get response "content-type" "")), w')
  | (Raised, w') => (false, w')
  end.

(** Lines 363-366: the three probes, in the order of the code *)
Definition check_availability (info : paper_info) (w : World)
  : paper_info * World :=
  let '(presentation, w1) := check_pdf_exists (presentation_url info) w in
  let '(paper, w2) := check_pdf_exists (paper_url info) w1 in
  let '(poster, w3) := check_pdf_exists (poster_url info) w2 in
  ({| paper_id := paper_id info;
      title := title info;
      authors := authors info;
      institutions := institutions info;
      abstract := abstract info;
      presentation_url := presentation_url info;
      paper_url := paper_url info;
      poster_url := poster_url info;
      doi := doi info;
      page_number := page_number info;
      presentation_available := presentation;
      paper_available := paper;
      poster_available := poster |}, w3).

Definition extract_paper_details_from_page (page_text paper_id : string)
    (w : World) : paper_info * World :=
  let info := initial_paper_info paper_id in
  match section_lines page_text paper_id with
  | None => (info, w)
  | Some lines => check_availability (fill_text_fields info lines) w
  end.

(** Lines 238-245: a [paper_info] dictionary is never empty, so every
    record is appended. *)
Fixpoint extract_each (page_text session_id : string)
    (paper_nums : list string) (w : World) : list paper_info * World :=
  match paper_nums with
  | [] => ([], w)
  | paper_num :: rest =>
      let paper_id := session_id +:+ paper_num in
      let '(info, w1) := extract_paper_details_from_page page_text paper_id w in
      let '(papers, w2) := extract_each page_text session_id rest w1 in
      (info :: papers, w2)
  end.

Definition extract_papers_from_session (page_text session_id : string)
    (w : World) : list paper_info * World :=
  match findall_paper_pattern session_id page_text with
  | [] => ([], w)
  | _ => extract_each page_text session_id (paper_nums session_id page_text) w
  end.

End Network.

(** ** The session record and its counts *)

(** The session configuration dictionary *)
Record session_info := {
  session_id : string;
  session_name : string;
  session_url : string
}.

(** [sum(...)] over integers *)
Definition sum (xs : list Z) : Z := foldl Z.add 0%Z xs.

(** [sum(1 for p in papers if p.get(flag, False))] *)
Definition count_available (flag : paper_info → bool)
    (papers : list paper_info) : Z :=
  sum ((λ _, 1%Z) <$> filter (λ p, flag p) papers).

(** The [session_data] dictionary of [save_session_data], lines 501-506;
    [scrape_time] is the formatted clock reading. *)
Record session_data := {
  sd_session_info : session_info;
  sd_papers : list paper_info;
  sd_paper_count : Z;
  sd_scrape_time : string
}.

Definition save_session_data (session : session_info)
    (papers : list paper_info) (scrape_time : string) : session_data :=
  {| sd_session_info := session;
     sd_papers := papers;
     sd_paper_count := Z.of_nat (length papers);
     sd_scrape_time := scrape_time |}.

(** The numbers [save_session_txt] writes into the summary header,
    lines 551-557 *)
Record txt_counts := {
  txt_paper_count : Z;
  available_presentations : Z;
  available_papers_count : Z;
  available_posters : Z
}.

Definition save_session_txt (session : session_info)
    (papers : list paper_info) : txt_counts :=
  {| txt_paper_count := Z.of_nat (length papers);
     available_presentations := count_available presentation_available papers;
     available_papers_count := count_available paper_available papers;
     available_posters := count_available poster_available papers |}.

(** ** Vocabulary of the specification *)

(** [sub] occurs in [s] at position [k] *)
Definition occurs_at (sub s : string) (k : nat) : Prop :=
  ∃ pre post, s = pre +:+ sub +:+ post ∧ String.length pre = k.

(** The generic paper-identifier shape, five upper-case letters followed
    by a digit, occurs in [s] at position [k] *)
Definition id_shape_at (s : string) (k : nat) : Prop :=
  ∃ pre letters digit post,
    s = pre +:+ letters +:+ String digit post
    ∧ String.length pre = k
    ∧ String.length letters = 5
    ∧ Str.forallb is_upper_AZ letters = true
    ∧ is_digit digit = true.

(** One of the end-marker tokens occurs in [s] at position [k] *)
Definition marker_at (s : string) (k : nat) : Prop :=
  ∃ marker, marker ∈ end_markers ∧ occurs_at marker s k.

(** [k] is the first position with property [P] *)
Definition first_at (P : nat → Prop) (k : nat) : Prop :=
  P k ∧ ∀ j, j < k → ¬ P j.

(** The fixed base path of the derived resource URLs *)
Definition base_path : string := "https://proceedings.jacow.org/srf2019".

(** A network on which every request fails, and one that serves a PDF
    for every URL *)
Definition offline : string → unit → outcome response * unit :=
  λ _ w, (Raised, w).
Definition pdf_server : string → unit → outcome response * unit :=
  λ _ w, (Returned {| status_code := 200;
                      headers := {[ "content-type" := "application/pdf" ]} |}, w).

(** Where the section of a paper starts: after the first occurrence of the
    identifier, the white space that follows it and the digits after
    that. *)
Definition section_start (page_text pid : string) (start : nat) : Prop :=
  ∃ a,
    first_at (occurs_at pid page_text) a
    ∧ let after_id := Str.skip (a + String.length pid) page_text in
      let spaces := Str.span is_space after_id in
      let digits :=
        Str.span is_digit (Str.skip (String.length spaces) after_id) in
      start = a + String.length pid + String.length spaces
              + String.length digits.

(** Where the section ends, in the text [rem] that follows its start: at
    the first identifier shape when there is one; otherwise at the first
    end marker; otherwise at the end of the text. *)
Inductive section_end (rem : string) (e : nat) : Prop :=
  | end_at_next_paper :
      first_at (id_shape_at rem) e → section_end rem e
  | end_at_marker :
      (∀ k, ¬ id_shape_at rem k) →
      first_at (marker_at rem) e → section_end rem e
  | end_at_end_of_text :
      (∀ k, ¬ id_shape_at rem k) →
      (∀ k, ¬ marker_at rem k) →
      e = String.length rem → section_end rem e.

(** The end of the section as the specification words it: the first
    position of an identifier shape or of an end marker, whichever comes
    first, and the end of the text when there is neither. *)
Definition claimed_section_end (rem : string) (e : nat) : Prop :=
  first_at (λ k, id_shape_at rem k ∨ marker_at rem k) e
  ∨ ((∀ k, ¬ id_shape_at rem k) ∧ (∀ k, ¬ marker_at rem k)
     ∧ e = String.length rem).

(** The integer a suffix of decimal digits denotes, as [int] reads it *)
Definition int_of_suffix (suffix : string) : Z :=
  let fix go (acc : Z) (s : string) : Z :=
    match s with
    | "" => acc
    | String c s' => go (10 * acc + (Z.of_N (code c) - 48))%Z s'
    end in
  go 0%Z suffix.

(** A line that consists of one to three digits and nothing else *)
Definition purely_numeric (line : string) : Prop :=
  1 ≤ String.length line ≤ 3 ∧ Str.forallb is_digit line = true.

(** [c] does not occur in [s] *)
Definition free_of (c : ascii) (s : string) : Prop :=
  Str.forallb (λ x, negb (Ascii.eqb x c)) s = true.

(** An author line as the specification words it: a comma, two or more
    non-empty comma-separated tokens, and no stop keyword *)
Definition claimed_author_line (line : string) : Prop :=
  (∃ k, occurs_at "," line k)
  ∧ 2 ≤ length (filter (λ a, a ≠ "") (Str.split ","%char line))
  ∧ ∀ keyword, keyword ∈ author_stop_keywords →
               ∀ k, ¬ occurs_at keyword (Str.lower line) k.

(** ** File names: [safe_filename], lines 143-179 *)

(** The character class of line 158: the characters [<], [>], [:], the
    double quote, [/], the backslash, [|], [?], the star, carriage return
    and newline *)
Definition is_invalid_filename_char (c : ascii) : bool :=
  existsb (Ascii.eqb c)
    ["<"; ">"; ":"; "034"; "/"; "092"; "|"; "?"; "*"; "013"; "010"]%char.

(** [re.sub(r'\s+', ' ', s)]: every maximal run of white space becomes one
    space; [in_run] tells that the previous character was white space. *)
Fixpoint collapse_spaces_go (in_run : bool) (s : string) : string :=
  match s with
  | "" => ""
  | String c s' =>
      if is_space c then
        if in_run then collapse_spaces_go true s'
        else String " " (collapse_spaces_go true s')
      else String c (collapse_spaces_go false s')
  end.
Definition collapse_spaces (s : string) : string := collapse_spaces_go false s.

(** [s.lstrip(chars)], [s.rstrip(chars)] and [s.strip(chars)], the set of
    characters given by its membership test *)
Fixpoint lstrip_chars (chars : ascii → bool) (s : string) : string :=
  match s with
  | "" => ""
  | String c s' => if chars c then lstrip_chars chars s' else s
  end.
Fixpoint rstrip_chars (chars : ascii → bool) (s : string) : string :=
  match s with
  | "" => ""
  | String c s' =>
      match rstrip_chars chars s' with
      | "" => if chars c then "" else String c ""
      | r => String c r
      end
  end.
Definition strip_chars (chars : ascii → bool) (s : string) : string :=
  rstrip_chars chars (lstrip_chars chars s).

(** the characters of [' ._'] *)
Definition is_space_dot_underscore (c : ascii) : bool :=
  existsb (Ascii.eqb c) [" "; "."; "_"]%char.

(** [s.split(sep, 1)]: the text before and after the first [sep], or [s]
    alone when [sep] does not occur *)
Definition split_once (sep s : string) : list string :=
  match Str.search (Str.match_literal sep) s with
  | Some (i, j) => [Str.keep i s; Str.skip j s]
  | None => [s]
  end.

(** The text before the last [sep] of [s], when there is one *)
Fixpoint before_last (sep : ascii) (s : string) : option string :=
  match s with
  | "" => None
  | String c s' =>
      match before_last sep s' with
      | Some r => Some (String c r)
      | None => if Ascii.eqb c sep then Some "" else None
      end
  end.

(** [s.rsplit(sep, 1)[0]] *)
Definition rsplit_head (sep : ascii) (s : string) : string :=
  from_option id s (before_last sep s).

(** [s[:n]] for any integer [n]: a negative [n] counts from the end *)
Definition slice_to (n : Z) (s : string) : string :=
  if (n <? 0)%Z then Str.keep (Z.to_nat (Z.of_nat (String.length s) + n)) s
  else Str.keep (Z.to_nat n) s.

(** Lines 158-160: the invalid characters replaced, the white space
    collapsed, the ends stripped *)
Definition clean_filename (filename : string) : string :=
  let filename :=
    Str.map (λ c, if is_invalid_filename_char c then "_"%char else c)
            filename in
  let filename := collapse_spaces filename in
  strip_chars is_space_dot_underscore filename.

(** Lines 163-177: the truncation of a name that is too long *)
Definition truncate_filename (filename : string) (max_length : Z) : string :=
  match split_once " - " filename with
  | [paper_id_part; title_part] =>
      let title_max :=
        (max_length - Z.of_nat (String.length paper_id_part) - 3)%Z in
      if (5 <? title_max)%Z then
        let title_part :=
          if Str.contains " " (slice_to title_max title_part)
          then rsplit_head " " (slice_to title_max title_part)
          else slice_to title_max title_part in
        paper_id_part +:+ " - " +:+ title_part
      else paper_id_part
  | _ => rsplit_head " " (slice_to max_length filename)
  end.

Definition safe_filename (filename : string) (max_length : Z) : string :=
  if negb (Str.truthy filename) then "unknown"
  else
    let filename := clean_filename filename in
    let filename :=
      if (max_length <? Z.of_nat (String.length filename))%Z
      then truncate_filename filename max_length
      else filename in
    if Str.truthy filename then filename else "unknown".

(** ** Fetching and scraping a session page *)

(** The counters of [self.stats] *)
Record stats := {
  total_papers : Z;
  downloaded_presentations : Z;
  downloaded_papers : Z;
  downloaded_posters : Z;
  errors : Z;
  sessions_processed : Z
}.

(** What [self.session.get(url, timeout=30)] gives: a response with its
    status code and text, a [requests.RequestException], or an exception
    of another kind *)
Inductive fetched :=
  | Page (status : Z) (text : string)
  | RequestException
  | OtherException.

(** [response.raise_for_status()] raises for the status codes 400-599. *)
Definition is_error_status (status : Z) : bool :=
  bool_decide (400 ≤ status < 600)%Z.

(** What the scraper changes while it runs: the network, its counters,
    and the clock through [time.sleep], kept as the list of the waits *)
Record run_state (World : Type) := {
  network : World;
  run_stats : stats;
  slept : list Z
}.
Arguments network {World} _.
Arguments run_stats {World} _.
Arguments slept {World} _.

Definition with_network {World} (st : run_state World) (w : World)
  : run_state World :=
  {| network := w; run_stats := run_stats st; slept := slept st |}.

(** [time.sleep(seconds)] *)
Definition sleep {World} (seconds : Z) (st : run_state World)
  : run_state World :=
  {| network := network st; run_stats := run_stats st;
     slept := slept st ++ [seconds] |}.

(** [self.stats['errors'] += 1] *)
Definition count_error {World} (st : run_state World) : run_state World :=
  {| network := network st;
     run_stats :=
       {| total_papers := total_papers (run_stats st);
          downloaded_presentations := downloaded_presentations (run_stats st);
          downloaded_papers := downloaded_papers (run_stats st);
          downloaded_posters := downloaded_posters (run_stats st);
          errors := errors (run_stats st) + 1;
          sessions_processed := sessions_processed (run_stats st) |};
     slept := slept st |}.

(** Lines 404-405 *)
Definition count_session {World} (papers : list paper_info)
    (st : run_state World) : run_state World :=
  {| network := network st;
     run_stats :=
       {| total_papers :=
            total_papers (run_stats st) + Z.of_nat (length papers);
          downloaded_presentations := downloaded_presentations (run_stats st);
          downloaded_papers := downloaded_papers (run_stats st);
          downloaded_posters := downloaded_posters (run_stats st);
          errors := errors (run_stats st);
          sessions_processed := sessions_processed (run_stats st) + 1 |};
     slept := slept st |}.

Section Scraping.

Context {World Soup : Type}.

(** [self.session.get(url, timeout=30)] *)
Variable get : string → World → fetched * World.

(** [BeautifulSoup(text, 'html.parser')] and [soup.get_text()] *)
Variable BeautifulSoup : string → Soup.
Variable get_text : Soup → string.

(** [self.session.head(pdf_url, timeout=10)] *)
Variable head : string → World → outcome response * World.

(** The loop of lines 192-203 over the attempts still to make; falling
    out of it leads to the [return None] of line 204.  An exception that
    is no [RequestException] is not caught. *)
Fixpoint get_page_content_loop (url : string) (retries : Z)
    (attempts : list Z) (st : run_state World)
  : outcome (option Soup) * run_state World :=
  match attempts with
  | [] => (Returned None, st)
  | attempt :: rest =>
      let '(answer, w) := get url (network st) in
      let st := with_network st w in
      let on_request_exception :=
        if (attempt <? retries - 1)%Z
        then get_page_content_loop url retries rest (sleep (2 ^ attempt) st)
        else get_page_content_loop url retries rest (count_error st) in
      match answer with
      | Page status text =>
          if is_error_status status then on_request_exception
          else (Returned (Some (BeautifulSoup text)), st)
      | RequestException => on_request_exception
      | OtherException => (Raised, st)
      end
  end.

(** [range(retries)] is [seqZ 0 retries], empty for [retries <= 0]. *)
Definition get_page_content (url : string) (retries : Z)
    (st : run_state World) : outcome (option Soup) * run_state World :=
  get_page_content_loop url retries (seqZ 0 retries) st.

(** Lines 396-416, with the default of three attempts *)
Definition scrape_session (session : session_info) (st : run_state World)
  : outcome (list paper_info) * run_state World :=
  match get_page_content (session_url session) 3 st with
  | (Raised, st) => (Raised, st)
  | (Returned None, st) => (Returned [], st)
  | (Returned (Some soup), st) =>
      let '(papers, w) :=
        extract_papers_from_session head (get_text soup)
          (session_id session) (network st) in
      (Returned papers, count_session papers (with_network st w))
  end.

End Scraping.

(** An answer that makes [get_page_content] try again: a
    [RequestException], raised by the request or by [raise_for_status] *)
Definition is_request_failure (answer : fetched) : bool :=
  match answer with
  | Page status _ => is_error_status status
  | RequestException => true
  | OtherException => false
  end.

(** The network after [n] requests for [url] in a row *)
Definition after_requests {World} (get : string → World → fetched * World)
    (url : string) (n : nat) (w : World) : World :=
  Nat.iter n (λ w', (get url w').2) w.

(** Sample networks whose state counts the requests made: a site that
    cannot be reached, a site that answers 503 twice and then serves a
    session page, and a prober that always fails *)
Definition unreachable_site : string → nat → fetched * nat :=
  λ _ n, (RequestException, S n).
Definition recovering_site : string → nat → fetched * nat :=
  λ _ n, (if Nat.ltb n 2 then Page 503 ""
          else Page 200 "MOFAA1 First title MOFAA2 Second title", S n).
Definition failing_prober : string → nat → outcome response * nat :=
  λ _ n, (Raised, S n).

(** The state in which a run starts, lines 72-76 *)
Definition fresh_run : run_state nat :=
  {| network := 0;
     run_stats :=
       {| total_papers := 0; downloaded_presentations := 0;
          downloaded_papers := 0; downloaded_posters := 0;
          errors := 0; sessions_processed := 0 |};
     slept := [] |}.

(** ** The list of sessions: [load_sessions], lines 81-131 *)

(** Upper-case and lower-case characters, as [str.isupper] sees them *)
Definition is_upper_char (c : ascii) : bool :=
  let n := code c in
  (((65 <=? n) && (n <=? 90))
   || ((192 <=? n) && (n <=? 222) && negb (n =? 215)))%N.

Definition is_lower_char (c : ascii) : bool :=
  let n := code c in
  (((97 <=? n) && (n <=? 122)) || (n =? 170) || (n =? 181) || (n =? 186)
   || ((223 <=? n) && (n <=? 255) && negb (n =? 247)))%N.

Arguments is_upper_char : simpl never.
Arguments is_lower_char : simpl never.

Fixpoint str_existsb (p : ascii → bool) (s : string) : bool :=
  match s with
  | "" => false
  | String c s' => p c || str_existsb p s'
  end.

(** [s.isupper()]: no lower-case character and at least one upper-case
    character *)
Definition isupper (s : string) : bool :=
  Str.forallb (λ c, negb (is_lower_char c)) s && str_existsb is_upper_char s.

(** The dictionary appended at lines 100-104 and 117-121 *)
Definition session_of (session_id session_name : string) : session_info :=
  {| session_id := session_id;
     session_name := session_id +:+ " - " +:+ session_name;
     session_url :=
       "https://proceedings.jacow.org/srf2019/html/"
         +:+ Str.lower session_id +:+ ".htm" |}.

(** Lines 92-104 on one row of the table: [cols] holds the texts of the
    cells of the row. *)
Definition session_of_row (cols : list string) : list session_info :=
  match cols with
  | col0 :: col1 :: _ =>
      let session_id := Str.strip col0 in
      let session_name := Str.strip col1 in
      if Str.truthy session_id && Str.truthy session_name
         && isupper session_id
      then [session_of session_id session_name]
      else []
  | _ => []
  end.

(** The loop of lines 111-124 (and of [extract_sessions.py], lines 13-25,
    with its own dictionary [make]): a line of five characters that is
    upper case is a session identifier, the line after it is the name,
    and the scan goes on after the name. *)
Fixpoint sessions_of_lines (make : string → string → session_info)
    (lines : list string) : list session_info :=
  match lines with
  | [] => []
  | line :: rest =>
      if Nat.eqb (String.length line) 5 && isupper line then
        match rest with
        | session_name :: rest' =>
            make line session_name :: sessions_of_lines make rest'
        | [] => []
        end
      else sessions_of_lines make rest
  end.

(** The dictionary of [extract_sessions.py], lines 18-22 *)
Definition session_of_2023 (session_id session_name : string)
  : session_info :=
  {| session_id := session_id;
     session_name := session_name;
     session_url :=
       "https://proceedings.jacow.org/srf2023/html/"
         +:+ Str.lower session_id +:+ ".htm" |}.

Section Sessions.

Context {Soup : Type}.

(** [soup.find('table')] with, for each row of [find_all('tr')], the
    texts of its [td] cells; [None] when the page has no table *)
Variable table_rows : Soup → option (list (list string)).
Variable get_text : Soup → string.

(** Lines 85-126: the sessions of the table, and those of the text when
    the table gives none *)
Definition sessions_of_soup (soup : Soup) : list session_info :=
  let sessions :=
    match table_rows soup with
    | Some rows => rows ≫= session_of_row
    | None => []
    end in
  match sessions with
  | [] => sessions_of_lines session_of (content_lines (get_text soup))
  | _ => sessions
  end.

(** [load_sessions]: any exception leaves an empty configuration. *)
Definition load_sessions (page : outcome Soup) : list session_info :=
  match page with
  | Returned soup => sessions_of_soup soup
  | Raised => []
  end.

End Sessions.

(** ** The final report: [create_final_summary], lines 592-641 *)

(** An entry of [all_sessions_data], lines 733-737 *)
Record session_entry := {
  entry_session_info : session_info;
  entry_papers : list paper_info;
  entry_paper_count : Z
}.

(** Lines 592-603: one total per resource type *)
Definition total_available (flag : paper_info → bool)
    (all_sessions_data : list session_entry) : Z :=
  sum ((λ session_data, count_available flag (entry_papers session_data))
         <$> all_sessions_data).

(** The values a [paper_info] dictionary holds *)
Inductive value :=
  | VStr (s : string)
  | VList (l : list string)
  | VBool (b : bool).

(** [bool(v)] *)
Definition value_truthy (v : value) : bool :=
  match v with
  | VStr s => Str.truthy s
  | VList l => match l with [] => false | _ => true end
  | VBool b => b
  end.

(** The [paper_info] dictionary with its keys, lines 260-274 *)
Definition paper_dict (info : paper_info) : gmap string value :=
  <["paper_id" := VStr (paper_id info)]>
  (<["title" := VStr (title info)]>
  (<["authors" := VList (authors info)]>
  (<["institutions" := VList (institutions info)]>
  (<["abstract" := VStr (abstract info)]>
  (<["presentation_url" := VStr (presentation_url info)]>
  (<["paper_url" := VStr (paper_url info)]>
  (<["poster_url" := VStr (poster_url info)]>
  (<["doi" := VStr (doi info)]>
  (<["page_number" := VStr (page_number info)]>
  (<["presentation_available" := VBool (presentation_available info)]>
  (<["paper_available" := VBool (paper_available info)]>
  (<["poster_available" := VBool (poster_available info)]> ∅)))))))))))).

(** [paper.get(key, False)], as a truth value *)
Definition get_flag (paper : gmap string value) (key : string) : bool :=
  value_truthy (from_option id (VBool false) (paper !! key)).

(** Line 640 *)
Definition pdf_icon (paper : gmap string value) : string :=
  if get_flag paper "pdf_available" then "PDF" else "---".

(** [analyze_results.py], line 39 *)
Definition available_pdfs (papers : list (gmap string value)) : Z :=
  sum ((λ _, 1%Z) <$> filter (λ p, get_flag p "pdf_available") papers).

(** ** Downloads: [download_single_file] and [download_files],
       lines 418-486 *)

(** The three kinds of file, named ['presentation'], ['paper'] and
    ['poster'] in the code *)
Inductive file_type := Presentation | Paper | Poster.

(** Line 436 *)
Definition file_suffix (t : file_type) : string :=
  match t with
  | Presentation => "_talk"
  | Poster => "_poster"
  | Paper => ""
  end.

(** The folders of lines 477-479 *)
Definition file_folder (t : file_type) : string :=
  match t with
  | Presentation => "Presentations"
  | Paper => "Papers"
  | Poster => "Posters"
  end.

Definition file_url (t : file_type) (info : paper_info) : string :=
  match t with
  | Presentation => presentation_url info
  | Paper => paper_url info
  | Poster => poster_url info
  end.

Definition file_available (t : file_type) (info : paper_info) : bool :=
  match t with
  | Presentation => presentation_available info
  | Paper => paper_available info
  | Poster => poster_available info
  end.

(** [s.endswith(suffix)] *)
Definition endswith (s suffix : string) : bool :=
  Nat.leb (String.length suffix) (String.length s)
  && String.eqb (Str.skip (String.length s - String.length suffix) s) suffix.

(** Lines 437-440: the name of the file *)
Definition download_name (t : file_type) (info : paper_info) : string :=
  let filename := paper_id info +:+ file_suffix t +:+ " - " +:+ title info in
  let safe_name := safe_filename filename 60 in
  if negb (endswith safe_name ".pdf") then safe_name +:+ ".pdf"
  else safe_name.

(** Lines 433 and 442: the directory of the session and the path of the
    file, as the components under the output directory *)
Definition download_dir (output_dir : string) (t : file_type)
    (session_name : string) : list string :=
  [output_dir; file_folder t; safe_filename session_name 60].

Definition download_path (output_dir : string) (t : file_type)
    (session_name : string) (info : paper_info) : list string :=
  download_dir output_dir t session_name ++ [download_name t info].

(** [self.stats[f'downloaded_{file_type}s'] += 1] *)
Definition count_download {World} (t : file_type) (st : run_state World)
  : run_state World :=
  let add (t' : file_type) (n : Z) : Z :=
    match t, t' with
    | Presentation, Presentation | Paper, Paper | Poster, Poster => (n + 1)%Z
    | _, _ => n
    end in
  {| network := network st;
     run_stats :=
       {| total_papers := total_papers (run_stats st);
          downloaded_presentations :=
            add Presentation (downloaded_presentations (run_stats st));
          downloaded_papers := add Paper (downloaded_papers (run_stats st));
          downloaded_posters := add Poster (downloaded_posters (run_stats st));
          errors := errors (run_stats st);
          sessions_processed := sessions_processed (run_stats st) |};
     slept := slept st |}.

(** The counter of one kind of file *)
Definition downloaded (t : file_type) (s : stats) : Z :=
  match t with
  | Presentation => downloaded_presentations s
  | Paper => downloaded_papers s
  | Poster => downloaded_posters s
  end.

Section Downloading.

(** The world holds the network and the file system. *)
Context {World : Type}.

(** [session_dir.mkdir(exist_ok=True, parents=True)] *)
Variable mkdir : list string → World → outcome unit * World.

(** [filepath.exists()] *)
Variable path_exists : list string → World → bool.

(** [self.session.get(file_url, stream=True, timeout=60)]: the status
    and the headers of the response *)
Variable get_stream : string → World → outcome response * World.

(** [int(text)], [None] standing for the [ValueError] *)
Variable parse_int : string → option Z.

(** Lines 456-458: the body of the response written to the file *)
Variable write_body : list string → response → World → outcome unit * World.

Variable output_dir : string.

(** The [except Exception] clause of lines 463-466 *)
Definition download_failed (st : run_state World) (w : World)
  : bool * run_state World :=
  (false, count_error (with_network st w)).

Definition download_single_file (url : string) (info : paper_info)
    (session_name : string) (t : file_type) (st : run_state World)
  : bool * run_state World :=
  match mkdir (download_dir output_dir t session_name) (network st) with
  | (Raised, w) => download_failed st w
  | (Returned _, w) =>
      let filepath := download_path output_dir t session_name info in
      if path_exists filepath w then (true, with_network st w)
      else
        match get_stream url w with
        | (Raised, w) => download_failed st w
        | (Returned response, w) =>
            if is_error_status (status_code response)
            then download_failed st w
            else
              let content_length :=
                match headers response !! "content-length" with
                | Some text => parse_int text
                | None => Some 0%Z
                end in
              match content_length with
              | None => download_failed st w
              | Some content_length =>
                  if bool_decide (0 < content_length)%Z
                     && bool_decide (content_length < 100)%Z
                  then (false, with_network st w)
                  else
                    match write_body filepath response w with
                    | (Raised, w) => download_failed st w
                    | (Returned _, w) => (true, with_network st w)
                    end
              end
        end
  end.

(** One turn of the loop of lines 482-486 *)
Definition download_one (info : paper_info) (session_name : string)
    (st : run_state World) (t : file_type) : run_state World :=
  if file_available t info then
    let '(success, st) :=
      download_single_file (file_url t info) info session_name t st in
    if success then count_download t st else st
  else st.

Definition download_files (info : paper_info) (session_name : string)
    (st : run_state World) : run_state World :=
  foldl (download_one info session_name) st [Presentation; Paper; Poster].

(** Lines 724-726 of [run]: the files of all papers of a session, with a
    second of rest after each paper *)
Definition download_session (papers : list paper_info)
    (session_name : string) (st : run_state World) : run_state World :=
  foldl (λ st info, sleep 1 (download_files info session_name st)) st papers.

End Downloading.

(** ** Strings: basic facts *)

Lemma str_app_cons c s t : String c s +:+ t = String c (s +:+ t).
Proof. reflexivity. Qed.

Lemma str_app_nil_r s : s +:+ "" = s.
Proof. induction s as [|c s IH]; [done|]. by rewrite str_app_cons, IH. Qed.

Lemma str_app_assoc s t u : (s +:+ t) +:+ u = s +:+ t +:+ u.
Proof. induction s as [|c s IH]; [done|]. by rewrite !str_app_cons, IH. Qed.

Lemma str_app_length s t :
  String.length (s +:+ t) = String.length s + String.length t.
Proof. induction s as [|c s IH]; [done|]. rewrite str_app_cons. simpl. by rewrite IH. Qed.

Lemma skip_nil n : Str.skip n "" = "".
Proof. by destruct n. Qed.

Lemma keep_nil n : Str.keep n "" = "".
Proof. by destruct n. Qed.

Lemma keep_skip n s : Str.keep n s +:+ Str.skip n s = s.
Proof.
  revert s. induction n as [|n IH]; intros [|c s]; try done.
  simpl. by rewrite str_app_cons, IH.
Qed.

Lemma keep_length n s : n ≤ String.length s → String.length (Str.keep n s) = n.
Proof.
  revert s. induction n as [|n IH]; intros [|c s]; simpl; try lia.
  intros. rewrite IH; lia.
Qed.

Lemma keep_length_le n s : String.length (Str.keep n s) ≤ n.
Proof.
  revert s. induction n as [|n IH]; intros [|c s]; simpl; try lia.
  specialize (IH s). lia.
Qed.

Lemma keep_all n s : String.length s ≤ n → Str.keep n s = s.
Proof.
  revert s. induction n as [|n IH]; intros [|c s]; simpl; try done; try lia.
  intros. rewrite IH; [done|lia].
Qed.

Lemma skip_all n s : String.length s ≤ n → Str.skip n s = "".
Proof.
  revert s. induction n as [|n IH]; intros [|c s]; simpl; try done; try lia.
  intros. apply IH. lia.
Qed.

Lemma skip_app pre s : Str.skip (String.length pre) (pre +:+ s) = s.
Proof. induction pre as [|c pre IH]; [done|]. by rewrite str_app_cons. Qed.

Lemma keep_app pre s : Str.keep (String.length pre) (pre +:+ s) = pre.
Proof.
  induction pre as [|c pre IH]; [done|].
  rewrite str_app_cons. simpl. by rewrite IH.
Qed.

Lemma prefix_iff p s : String.prefix p s = true ↔ ∃ post, s = p +:+ post.
Proof.
  revert s. induction p as [|a p IH]; intros [|b s]; simpl.
  - split; [by exists ""|done].
  - split; [by exists (String b s)|done].
  - split; [done|]. intros [post Hpost]. by rewrite str_app_cons in Hpost.
  - destruct (ascii_dec a b) as [->|Hne].
    + rewrite IH. split; intros [post Hpost]; exists post.
      * by rewrite str_app_cons, Hpost.
      * rewrite str_app_cons in Hpost. by injection Hpost.
    + split; [done|]. intros [post Hpost].
      rewrite str_app_cons in Hpost. by injection Hpost as -> _.
Qed.

Lemma occurs_at_iff sub s k :
  occurs_at sub s k ↔ k ≤ String.length s ∧ String.prefix sub (Str.skip k s) = true.
Proof.
  rewrite prefix_iff. split.
  - intros (pre & post & -> & <-). split.
    + rewrite str_app_length. lia.
    + exists post. apply skip_app.
  - intros [Hk [post Hpost]]. exists (Str.keep k s), post. split.
    + rewrite <- Hpost. by rewrite keep_skip.
    + by apply keep_length.
Qed.

(** ** The leftmost search *)

Lemma search_Some m s a b :
  Str.search m s = Some (a, b) →
  a ≤ String.length s
  ∧ (∃ n, m (Str.skip a s) = Some n ∧ b = a + n)
  ∧ ∀ j, j < a → m (Str.skip j s) = None.
Proof.
  revert a b. induction s as [|c s IH]; intros a b; simpl.
  - destruct (m "") as [n|] eqn:Hm; [|done].
    intros [= <- <-]. split; [lia|]. split; [eauto|]. lia.
  - destruct (m (String c s)) as [n|] eqn:Hm.
    + intros [= <- <-]. split; [lia|]. split; [eauto|]. lia.
    + destruct (Str.search m s) as [[a' b']|] eqn:Hs; [|done].
      simpl. intros [= <- <-].
      destruct (IH a' b' eq_refl) as (Ha & (n & Hn & ->) & Hbefore).
      split; [lia|]. split; [exists n; split; [done|lia]|].
      intros [|j] Hj; [done|]. simpl. apply Hbefore. lia.
Qed.

Lemma search_None m s :
  Str.search m s = None → ∀ j, m (Str.skip j s) = None.
Proof.
  induction s as [|c s IH]; simpl.
  - destruct (m "") eqn:Hm; [done|]. intros _ j. by rewrite skip_nil.
  - destruct (m (String c s)) eqn:Hm; [done|].
    destruct (Str.search m s) as [[a' b']|] eqn:Hs; [done|].
    intros _ [|j]; [done|]. simpl. by apply IH.
Qed.

Lemma contains_true sub s :
  Str.contains sub s = true ↔ ∃ k, occurs_at sub s k.
Proof.
  unfold Str.contains, Str.find.
  destruct (Str.search (Str.match_literal sub) s) as [[a b]|] eqn:Hs.
  - apply search_Some in Hs as (Ha & (n & Hn & _) & _).
    unfold Str.match_literal in Hn.
    destruct (String.prefix sub (Str.skip a s)) eqn:Hp; [|done].
    split; [|intros _; apply bool_decide_eq_true; lia].
    intros _. exists a. by apply occurs_at_iff.
  - split; [by rewrite bool_decide_eq_true|].
    intros [k [_ Hk]%occurs_at_iff].
    apply search_None with (j := k) in Hs.
    unfold Str.match_literal in Hs. by rewrite Hk in Hs.
Qed.

Lemma contains_false sub s :
  Str.contains sub s = false ↔ ∀ k, ¬ occurs_at sub s k.
Proof.
  rewrite <- not_true_iff_false, contains_true. split.
  - intros H k Hk. apply H. eauto.
  - intros H [k Hk]. by apply (H k).
Qed.

(** ** The Resource Prober *)

(** C3. The probe answers [true] exactly when the [HEAD] request returns a
    response with status 200 whose content type, lower-cased, contains
    [pdf]; a request that raises (transport failure, timeout) gives
    [false]; the probe itself always returns a Boolean, and its only
    effect is the request. *)
Theorem check_pdf_exists_spec {World} (head : string → World → outcome response * World)
    (pdf_url : string) (w : World) :
  (check_pdf_exists head pdf_url w).2 = (head pdf_url w).2
  ∧ ((check_pdf_exists head pdf_url w).1 = true ↔
       ∃ r content_type,
         (head pdf_url w).1 = Returned r
         ∧ status_code r = 200%Z
         ∧ headers r !! "content-type" = Some content_type
         ∧ ∃ k, occurs_at "pdf" (Str.lower content_type) k)
  ∧ ((head pdf_url w).1 = Raised → (check_pdf_exists head pdf_url w).1 = false)
  ∧ (∀ r, (head pdf_url w).1 = Returned r →
          (∀ k, ¬ occurs_at "pdf" (Str.lower (headers_get r "content-type" "")) k) →
          (check_pdf_exists head pdf_url w).1 = false).
Proof.
  unfold check_pdf_exists.
  destruct (head pdf_url w) as [[r|] w']; simpl.
  - split; [done|]. split; [|split; [done|]].
    + rewrite andb_true_iff, bool_decide_eq_true, contains_true.
      unfold headers_get. change (Str.lower "content-type") with "content-type".
      split.
      * intros [Hst [k Hk]].
        destruct (headers r !! "content-type") as [ct|] eqn:Hct.
        -- exists r, ct. eauto.
        -- simpl in Hk. apply occurs_at_iff in Hk as [Hk1 Hk2].
           simpl in Hk1. assert (k = 0) as -> by lia. done.
      * intros (r' & ct & [= <-] & Hst & Hct & Hk). by rewrite Hct.
    + intros r' [= <-] Hno. apply andb_false_iff. right.
      by apply contains_false.
  - split; [done|]. split; [|done]. split; [done|]. by intros (? & ? & ? & _).
Qed.

(** ** The Paper Field Extractor: locating the identifier *)

Lemma match_paper_id_Some paper_id s n :
  match_paper_id paper_id s = Some n → String.prefix paper_id s = true.
Proof. unfold match_paper_id. by destruct (String.prefix paper_id s). Qed.

Lemma search_paper_id_None page_text paper_id :
  (∀ k, ¬ occurs_at paper_id page_text k) →
  Str.search (match_paper_id paper_id) page_text = None.
Proof.
  intros Hno.
  destruct (Str.search _ page_text) as [[a b]|] eqn:Hs; [|done].
  apply search_Some in Hs as (Ha & (n & Hn%match_paper_id_Some & _) & _).
  destruct (Hno a). by apply occurs_at_iff.
Qed.

Lemma search_paper_id_Some page_text paper_id a b :
  Str.search (match_paper_id paper_id) page_text = Some (a, b) →
  first_at (occurs_at paper_id page_text) a.
Proof.
  intros (Ha & (n & Hn%match_paper_id_Some & _) & Hbefore)%search_Some.
  split; [by apply occurs_at_iff|].
  intros j Hj [_ Hp]%occurs_at_iff. specialize (Hbefore j Hj).
  unfold match_paper_id in Hbefore. by rewrite Hp in Hbefore.
Qed.

Lemma check_availability_fields {World}
    (head : string → World → outcome response * World) info w :
  let info' := (check_availability head info w).1 in
  paper_id info' = paper_id info ∧ title info' = title info
  ∧ authors info' = authors info ∧ institutions info' = institutions info
  ∧ abstract info' = abstract info ∧ page_number info' = page_number info
  ∧ presentation_url info' = presentation_url info
  ∧ paper_url info' = paper_url info ∧ poster_url info' = poster_url info
  ∧ doi info' = doi info.
Proof.
  unfold check_availability.
  destruct (check_pdf_exists head (presentation_url info) w) as [b1 w1].
  destruct (check_pdf_exists head (paper_url info) w1) as [b2 w2].
  destruct (check_pdf_exists head (poster_url info) w2) as [b3 w3].
  simpl. repeat split.
Qed.

(** C4. When the paper identifier occurs nowhere in the page text, the
    extractor returns a record (no probe is made): the title, authors,
    institutions, abstract and page number are empty, the availability
    flags are false, and the three resource URLs and the DOI are the ones
    derived from the identifier. *)
Theorem extractor_identifier_not_found {World}
    (head : string → World → outcome response * World)
    (page_text pid : string) (w : World) :
  (∀ k, ¬ occurs_at pid page_text k) →
  ∃ info,
    extract_paper_details_from_page head page_text pid w = (info, w)
    ∧ paper_id info = pid
    ∧ title info = "" ∧ authors info = [] ∧ institutions info = []
    ∧ abstract info = "" ∧ page_number info = ""
    ∧ presentation_available info = false
    ∧ paper_available info = false
    ∧ poster_available info = false
    ∧ presentation_url info =
        base_path +:+ "/talks/" +:+ Str.lower pid +:+ "_talk.pdf"
    ∧ paper_url info =
        base_path +:+ "/papers/" +:+ Str.lower pid +:+ ".pdf"
    ∧ poster_url info =
        base_path +:+ "/posters/" +:+ Str.lower pid +:+ "_poster.pdf"
    ∧ doi info = "https://doi.org/10.18429/JACoW-SRF2019-" +:+ pid.
Proof.
  intros Hno. exists (initial_paper_info pid).
  unfold extract_paper_details_from_page, section_lines.
  rewrite (search_paper_id_None _ _ Hno). repeat split.
Qed.

Lemma extractor_identifier_not_found_witness :
  (∀ k, ¬ occurs_at "MOFAA9" "MOFAA1 Title" k)
  ∧ ∃ info,
      extract_paper_details_from_page pdf_server "MOFAA1 Title" "MOFAA9" ()
        = (info, ())
      ∧ paper_id info = "MOFAA9"
      ∧ title info = "" ∧ authors info = [] ∧ institutions info = []
      ∧ abstract info = "" ∧ page_number info = ""
      ∧ presentation_available info = false
      ∧ paper_available info = false
      ∧ poster_available info = false
      ∧ presentation_url info =
          "https://proceedings.jacow.org/srf2019/talks/mofaa9_talk.pdf"
      ∧ paper_url info =
          "https://proceedings.jacow.org/srf2019/papers/mofaa9.pdf"
      ∧ poster_url info =
          "https://proceedings.jacow.org/srf2019/posters/mofaa9_poster.pdf"
      ∧ doi info = "https://doi.org/10.18429/JACoW-SRF2019-MOFAA9".
Proof.
  split.
  - apply contains_false. vm_compute. reflexivity.
  - apply (extractor_identifier_not_found pdf_server "MOFAA1 Title" "MOFAA9" ()).
    apply contains_false. vm_compute. reflexivity.
Defined.

Lemma fill_text_fields_derived info lines :
  let info' := fill_text_fields info lines in
  paper_id info' = paper_id info
  ∧ presentation_url info' = presentation_url info
  ∧ paper_url info' = paper_url info ∧ poster_url info' = poster_url info
  ∧ doi info' = doi info
  ∧ presentation_available info' = presentation_available info
  ∧ paper_available info' = paper_available info
  ∧ poster_available info' = poster_available info.
Proof. repeat split. Qed.

Lemma extractor_derived_fields {World}
    (head : string → World → outcome response * World) page_text pid w :
  let info := (extract_paper_details_from_page head page_text pid w).1 in
  paper_id info = pid
  ∧ presentation_url info = presentation_url (initial_paper_info pid)
  ∧ paper_url info = paper_url (initial_paper_info pid)
  ∧ poster_url info = poster_url (initial_paper_info pid)
  ∧ doi info = doi (initial_paper_info pid).
Proof.
  unfold extract_paper_details_from_page.
  destruct (section_lines page_text pid) as [lines|]; [|by repeat split].
  pose proof (check_availability_fields head
                (fill_text_fields (initial_paper_info pid) lines) w) as H.
  simpl in *. destruct H as (-> & _ & _ & _ & _ & _ & -> & -> & -> & ->).
  by repeat split.
Qed.

(** C7. The resource URLs and the DOI of an extracted record are functions
    of the paper identifier alone and follow the fixed templates: the
    lower-cased identifier between the base path with its per-type
    directory and the per-type suffix, and for the DOI the citation prefix,
    the conference code and the identifier as given.  Neither the page
    text nor the network has any influence, so two derivations from the
    same identifier agree character by character. *)
Theorem derived_urls_follow_templates (pid : string) :
  (∀ World (head : string → World → outcome response * World) page_text w,
     let info := (extract_paper_details_from_page head page_text pid w).1 in
     presentation_url info =
       base_path +:+ "/talks/" +:+ Str.lower pid +:+ "_talk.pdf"
     ∧ paper_url info =
       base_path +:+ "/papers/" +:+ Str.lower pid +:+ ".pdf"
     ∧ poster_url info =
       base_path +:+ "/posters/" +:+ Str.lower pid +:+ "_poster.pdf"
     ∧ doi info = "https://doi.org/10.18429/JACoW-SRF2019-" +:+ pid)
  ∧ (∀ World1 World2
       (head1 : string → World1 → outcome response * World1)
       (head2 : string → World2 → outcome response * World2)
       page_text1 page_text2 w1 w2,
     let info1 := (extract_paper_details_from_page head1 page_text1 pid w1).1 in
     let info2 := (extract_paper_details_from_page head2 page_text2 pid w2).1 in
     presentation_url info1 = presentation_url info2
     ∧ paper_url info1 = paper_url info2
     ∧ poster_url info1 = poster_url info2
     ∧ doi info1 = doi info2).
Proof.
  split.
  - intros World head page_text w.
    destruct (extractor_derived_fields head page_text pid w)
      as (_ & H1 & H2 & H3 & H4).
    simpl. rewrite H1, H2, H3, H4. repeat split.
  - intros World1 World2 head1 head2 page_text1 page_text2 w1 w2.
    destruct (extractor_derived_fields head1 page_text1 pid w1)
      as (_ & H1 & H2 & H3 & H4).
    destruct (extractor_derived_fields head2 page_text2 pid w2)
      as (_ & G1 & G2 & G3 & G4).
    simpl. by rewrite H1, H2, H3, H4, G1, G2, G3, G4.
Qed.

(** ** The Paper Field Extractor: the end of the section *)

Lemma skip_skip a b s : Str.skip a (Str.skip b s) = Str.skip (b + a) s.
Proof.
  revert s. induction b as [|b IH]; intros s; [done|].
  destruct s as [|c s]; simpl; [apply skip_nil|apply IH].
Qed.

Lemma span_truthy p s :
  Str.truthy (Str.span p s) = true →
  ∃ c s', s = String c s' ∧ p c = true.
Proof.
  destruct s as [|c s']; simpl; [done|].
  destruct (p c) eqn:Hp; [eauto|done].
Qed.

Lemma match_next_paper_iff t :
  is_Some (match_next_paper t) ↔
  ∃ letters digit post,
    t = letters +:+ String digit post
    ∧ String.length letters = 5
    ∧ Str.forallb is_upper_AZ letters = true
    ∧ is_digit digit = true.
Proof.
  unfold match_next_paper. split.
  - intros [n Hn].
    destruct (Nat.eqb_spec (String.length (Str.keep 5 t)) 5) as [Hlen|]; [|done].
    destruct (Str.forallb is_upper_AZ (Str.keep 5 t)) eqn:Hup; [|done].
    destruct (Str.truthy (Str.span is_digit (Str.skip 5 t))) eqn:Hd; [|done].
    apply span_truthy in Hd as (d & post & Hskip & Hdigit).
    exists (Str.keep 5 t), d, post. rewrite <- Hskip.
    by rewrite keep_skip.
  - intros (letters & d & post & -> & Hlen & Hup & Hd).
    rewrite <- Hlen, keep_app, skip_app, Hlen, Hup. simpl. by rewrite Hd.
Qed.

Lemma id_shape_at_iff s k :
  id_shape_at s k ↔
  k ≤ String.length s ∧ is_Some (match_next_paper (Str.skip k s)).
Proof.
  rewrite match_next_paper_iff. split.
  - intros (pre & letters & d & post & -> & <- & Hrest). split.
    + rewrite str_app_length. lia.
    + exists letters, d, post. by rewrite skip_app.
  - intros [Hk (letters & d & post & Hskip & Hrest)].
    exists (Str.keep k s), letters, d, post. split.
    + by rewrite <- Hskip, keep_skip.
    + split; [by apply keep_length|done].
Qed.

Lemma not_id_shape_beyond s k : String.length s < k → ¬ id_shape_at s k.
Proof. intros Hk [Hle _]%id_shape_at_iff. lia. Qed.

Lemma search_next_paper_Some rem a b :
  Str.search match_next_paper rem = Some (a, b) →
  first_at (id_shape_at rem) a.
Proof.
  intros (Ha & (n & Hn & _) & Hbefore)%search_Some. split.
  - apply id_shape_at_iff. eauto.
  - intros j Hj [_ [x Hx]]%id_shape_at_iff. by rewrite Hbefore in Hx.
Qed.

Lemma search_next_paper_None rem :
  Str.search match_next_paper rem = None → ∀ k, ¬ id_shape_at rem k.
Proof.
  intros Hs k [_ [x Hx]]%id_shape_at_iff.
  by rewrite (search_None _ _ Hs) in Hx.
Qed.

Lemma find_spec s sub :
  (Str.find s sub = (-1)%Z ∧ ∀ k, ¬ occurs_at sub s k)
  ∨ ∃ i, Str.find s sub = Z.of_nat i ∧ first_at (occurs_at sub s) i.
Proof.
  unfold Str.find.
  destruct (Str.search (Str.match_literal sub) s) as [[a b]|] eqn:Hs.
  - right. exists a. split; [done|].
    apply search_Some in Hs as (Ha & (n & Hn & _) & Hbefore).
    unfold Str.match_literal in *. split.
    + apply occurs_at_iff.
      by destruct (String.prefix sub (Str.skip a s)).
    + intros j Hj [_ Hp]%occurs_at_iff.
      specialize (Hbefore j Hj). by rewrite Hp in Hbefore.
  - left. split; [done|].
    intros k [_ Hp]%occurs_at_iff.
    apply search_None with (j := k) in Hs.
    unfold Str.match_literal in Hs. by rewrite Hp in Hs.
Qed.

Lemma occurs_at_bound sub s k :
  occurs_at sub s k → k + String.length sub ≤ String.length s.
Proof. intros (pre & post & -> & <-). rewrite !str_app_length. lia. Qed.

Lemma min_end_step rem marker (min_end : Z) :
  let min_end' :=
    (let marker_pos := Str.find rem marker in
     if bool_decide (marker_pos ≠ -1) && bool_decide (marker_pos < min_end)
     then marker_pos else min_end)%Z in
  (min_end' ≤ min_end)%Z
  ∧ (min_end' = min_end
     ∨ ∃ i, min_end' = Z.of_nat i ∧ occurs_at marker rem i)
  ∧ ∀ i, occurs_at marker rem i → (min_end' ≤ Z.of_nat i)%Z.
Proof.
  simpl.
  destruct (find_spec rem marker) as [[-> Hno]|(i & -> & Hocc & Hfirst)].
  - simpl. split; [lia|]. split; [by left|].
    intros i Hi. by destruct (Hno i).
  - assert (∀ k, occurs_at marker rem k → i ≤ k) as Hleast.
    { intros k Hk. destruct (decide (i ≤ k)); [done|].
      destruct (Hfirst k); [lia|done]. }
    rewrite (bool_decide_eq_true_2 (Z.of_nat i ≠ -1)%Z) by lia.
    case_bool_decide as H2; simpl.
    + split; [lia|]. split; [right; eauto|].
      intros k Hk%Hleast. lia.
    + split; [lia|]. split; [by left|].
      intros k Hk%Hleast. lia.
Qed.

(** The loop of lines 302-305 leaves the least marker position below the
    initial bound, or the bound itself when there is none. *)
Lemma min_end_spec rem markers (init : Z) :
  let min_end :=
    foldl (λ (min_end : Z) marker,
             let marker_pos := Str.find rem marker in
             if bool_decide (marker_pos ≠ -1)
                && bool_decide (marker_pos < min_end)
             then marker_pos else min_end)%Z init markers in
  (min_end ≤ init)%Z
  ∧ (min_end = init
     ∨ ∃ marker i, marker ∈ markers ∧ min_end = Z.of_nat i
                   ∧ occurs_at marker rem i)
  ∧ ∀ marker i, marker ∈ markers → occurs_at marker rem i →
                (min_end ≤ Z.of_nat i)%Z.
Proof.
  revert init. induction markers as [|m ms IH]; intros init.
  - simpl. split; [lia|]. split; [by left|].
    intros ? ? H. by apply elem_of_nil in H.
  - destruct (min_end_step rem m init) as (Hle' & Hcase' & Hmin').
    cbn [foldl]. cbn zeta in Hle', Hcase', Hmin'.
    match goal with |- context [foldl _ ?x ms] => set (init' := x) in * end.
    destruct (IH init') as (Hle & Hcase & Hmin). clear IH.
    cbn zeta.
    match goal with |- context [foldl ?f init' ms] =>
      set (r := foldl f init' ms) in * end.
    split; [lia|]. split.
    + destruct Hcase as [->|(m' & i & Hin & -> & Hocc)].
      * destruct Hcase' as [->|(i & -> & Hocc)]; [by left|].
        right. exists m, i. split; [apply list_elem_of_here|done].
      * right. exists m', i. split; [by apply list_elem_of_further|done].
    + intros m' i [->|Hin]%elem_of_cons Hocc.
      * specialize (Hmin' i Hocc). lia.
      * by apply (Hmin m' i).
Qed.

Lemma end_markers_nonempty marker :
  marker ∈ end_markers → 1 ≤ String.length marker.
Proof.
  unfold end_markers. rewrite !elem_of_cons, elem_of_nil.
  intros H. repeat (destruct H as [->|H]; [simpl; lia|]). done.
Qed.

Lemma paper_content_of_spec rem :
  ∃ e, section_end rem e ∧ paper_content_of rem = Str.keep e rem.
Proof.
  unfold paper_content_of.
  destruct (Str.search match_next_paper rem) as [[a b]|] eqn:Hs.
  { exists a. split; [|done].
    apply end_at_next_paper. by eapply search_next_paper_Some. }
  pose proof (search_next_paper_None _ Hs) as Hnoid.
  pose proof (min_end_spec rem end_markers (Z.of_nat (String.length rem)))
    as (Hle & Hcase & Hmin).
  cbn zeta in Hle, Hcase, Hmin |- *.
  set (min_end := foldl _ _ _) in *.
  case_bool_decide as Hlt.
  - destruct Hcase as [Heq|(m & i & Hin & Hi & Hocc)]; [lia|].
    exists i. rewrite Hi, Nat2Z.id. split; [|done].
    apply end_at_marker; [done|]. split; [by exists m|].
    intros j Hj (m' & Hin' & Hocc').
    specialize (Hmin m' j Hin' Hocc'). lia.
  - exists (String.length rem). split; [|by rewrite keep_all].
    apply end_at_end_of_text; [done| |done].
    intros k (m & Hin & Hocc).
    pose proof (Hmin m k Hin Hocc).
    pose proof (occurs_at_bound _ _ _ Hocc).
    pose proof (end_markers_nonempty _ Hin). lia.
Qed.

Lemma first_at_unique (P : nat → Prop) a b :
  first_at P a → first_at P b → a = b.
Proof.
  intros [Ha Ha'] [Hb Hb'].
  destruct (Nat.lt_trichotomy a b) as [H|[H|H]]; [|done|].
  - by destruct (Hb' a).
  - by destruct (Ha' b).
Qed.

Lemma section_end_unique rem e e' :
  section_end rem e → section_end rem e' → e = e'.
Proof.
  intros [H1|H1 H2|H1 H2 H3] [G1|G1 G2|G1 G2 G3].
  - by eapply first_at_unique.
  - destruct H1 as [H1 _]. by destruct (G1 e).
  - destruct H1 as [H1 _]. by destruct (G1 e).
  - destruct G1 as [G1 _]. by destruct (H1 e').
  - by eapply first_at_unique.
  - destruct H2 as [H2 _]. by destruct (G2 e).
  - destruct G1 as [G1 _]. by destruct (H1 e').
  - destruct G2 as [G2 _]. by destruct (H2 e').
  - congruence.
Qed.

Lemma section_lines_Some page_text pid lines :
  section_lines page_text pid = Some lines →
  ∃ start,
    section_start page_text pid start
    ∧ lines = content_lines (paper_content_of (Str.skip start page_text)).
Proof.
  unfold section_lines.
  destruct (Str.search (match_paper_id pid) page_text) as [[a b]|] eqn:Hs;
    [|done].
  intros [= <-]. exists b. split; [|done].
  exists a. split; [by eapply search_paper_id_Some|].
  apply search_Some in Hs as (_ & (n & Hn & ->) & _).
  unfold match_paper_id in Hn.
  destruct (String.prefix pid (Str.skip a page_text)); [|done].
  rewrite skip_skip in Hn. injection Hn as <-. simpl. lia.
Qed.

(** C2 (amended). The section of a located paper starts after the
    identifier (with the white space and digits that follow it) and ends
    at the first occurrence of the identifier shape, five upper-case
    letters and a digit, when the rest of the text has one; only when it
    has none does it end at the first occurrence of an end marker; with
    neither it runs to the end of the text.  The end is unique. *)
Theorem section_ends_at_next_identifier_else_marker
    (page_text pid : string) (lines : list string) :
  section_lines page_text pid = Some lines →
  ∃ start e,
    section_start page_text pid start
    ∧ section_end (Str.skip start page_text) e
    ∧ (∀ e', section_end (Str.skip start page_text) e' → e' = e)
    ∧ lines = content_lines (Str.keep e (Str.skip start page_text)).
Proof.
  intros (start & Hstart & ->)%section_lines_Some.
  destruct (paper_content_of_spec (Str.skip start page_text)) as (e & He & ->).
  exists start, e. split; [done|]. split; [done|]. split; [|done].
  intros e' He'. by eapply section_end_unique.
Qed.

Lemma section_ends_at_next_identifier_else_marker_witness :
  section_lines "MOFAA1 Title... MOFAA2 NextTitle..." "MOFAA1"
    = Some ["Title..."]
  ∧ ∃ start e,
      section_start "MOFAA1 Title... MOFAA2 NextTitle..." "MOFAA1" start
      ∧ section_end (Str.skip start "MOFAA1 Title... MOFAA2 NextTitle...") e
      ∧ (∀ e', section_end
                 (Str.skip start "MOFAA1 Title... MOFAA2 NextTitle...") e' →
               e' = e)
      ∧ ["Title..."] =
        content_lines
          (Str.keep e (Str.skip start "MOFAA1 Title... MOFAA2 NextTitle...")).
Proof.
  split.
  - vm_compute. reflexivity.
  - apply (section_ends_at_next_identifier_else_marker
             "MOFAA1 Title... MOFAA2 NextTitle..." "MOFAA1" ["Title..."]).
    vm_compute. reflexivity.
Defined.

(** C2 as stated fails: in the text after [MOFAA1 ], the marker [DOI:]
    at position 6 comes before the next identifier at position 13, yet the
    section runs up to the identifier and the marker stays inside it. *)
Lemma section_end_whichever_first_counterexample :
  claimed_section_end "Title DOI: x MOFAA2 Next" 6
  ∧ section_end "Title DOI: x MOFAA2 Next" 13
  ∧ paper_content_of "Title DOI: x MOFAA2 Next" = "Title DOI: x "
  ∧ paper_content_of "Title DOI: x MOFAA2 Next"
      ≠ Str.keep 6 "Title DOI: x MOFAA2 Next"
  ∧ section_lines "MOFAA1 Title DOI: x MOFAA2 Next" "MOFAA1"
      = Some ["Title DOI: x"].
Proof.
  split; [|split; [|split; [|split]]].
  - left. split.
    + right. exists "DOI:". split.
      * unfold end_markers. apply list_elem_of_here.
      * apply occurs_at_iff. split; [simpl; lia|]. vm_compute. reflexivity.
    + intros j Hj [H|H].
      * do 6 (destruct j as [|j];
              [apply id_shape_at_iff in H as [_ [? H]];
               vm_compute in H; discriminate H|]).
        lia.
      * destruct H as (m & Hin & [_ Hocc]%occurs_at_iff).
        unfold end_markers in Hin.
        rewrite !elem_of_cons, elem_of_nil in Hin.
        do 6 (destruct j as [|j];
              [repeat (destruct Hin as [->|Hin];
                       [vm_compute in Hocc; discriminate Hocc|]);
               done|]).
        lia.
  - apply end_at_next_paper, (search_next_paper_Some _ 13 19).
    vm_compute. reflexivity.
  - vm_compute. reflexivity.
  - vm_compute. discriminate.
  - vm_compute. reflexivity.
Qed.

(** ** The Text Segmenter *)

Lemma span_forallb p s : Str.forallb p (Str.span p s) = true.
Proof.
  induction s as [|c s IH]; simpl; [done|].
  destruct (p c) eqn:Hp; simpl; [|done]. by rewrite Hp.
Qed.

Lemma span_skip p s :
  Str.span p s +:+ Str.skip (String.length (Str.span p s)) s = s.
Proof.
  induction s as [|c s IH]; simpl; [done|].
  destruct (p c); simpl; [|done]. by rewrite str_app_cons, IH.
Qed.

Lemma occurs_at_cons sub c s k :
  occurs_at sub s k → occurs_at sub (String c s) (S k).
Proof.
  intros (pre & post & -> & <-). by exists (String c pre), post.
Qed.

Lemma match_paper_pattern_Some sid s digits :
  match_paper_pattern sid s = Some digits →
  digits ≠ "" ∧ Str.forallb is_digit digits = true
  ∧ occurs_at (sid +:+ digits) s 0.
Proof.
  unfold match_paper_pattern.
  destruct (String.prefix sid s) eqn:Hp; [|done].
  destruct (Str.truthy _) eqn:Ht; [|done]. intros [= <-].
  split; [|split].
  - intros Heq. by rewrite Heq in Ht.
  - apply span_forallb.
  - apply prefix_iff in Hp as [post ->]. rewrite skip_app.
    exists "", (Str.skip (String.length (Str.span is_digit post)) post).
    split; [|done]. simpl. by rewrite str_app_assoc, span_skip.
Qed.

Lemma findall_go_sound sid inside s n :
  n ∈ findall_go sid inside s →
  n ≠ "" ∧ Str.forallb is_digit n = true ∧ ∃ k, occurs_at (sid +:+ n) s k.
Proof.
  revert inside. induction s as [|c s IH]; intros inside; simpl.
  { by intros ?%elem_of_nil. }
  assert (∀ i, n ∈ findall_go sid i s →
               n ≠ "" ∧ Str.forallb is_digit n = true
               ∧ ∃ k, occurs_at (sid +:+ n) (String c s) k) as IH'.
  { intros i (? & ? & k & Hk)%IH. eauto using occurs_at_cons. }
  destruct inside as [|inside]; [|apply IH'].
  destruct (match_paper_pattern sid (String c s)) as [digits|] eqn:Hm;
    [|apply IH'].
  intros [->|Hin]%elem_of_cons; [|by eapply IH'].
  apply match_paper_pattern_Some in Hm as (? & ? & ?). eauto.
Qed.

Lemma StronglySorted_strict {A} (R : relation A) `{!AntiSymm (=) R} l :
  StronglySorted R l → NoDup l → StronglySorted (strict R) l.
Proof.
  induction 1 as [|x l Hl IH Hx]; intros Hnd; [constructor|].
  apply NoDup_cons in Hnd as [Hnotin Hnd].
  constructor; [by apply IH|].
  rewrite Forall_forall in Hx |- *. intros y Hy.
  split; [by apply Hx|]. intros Hyx.
  assert (x = y) as -> by (apply (anti_symm R); auto). done.
Qed.

Lemma paper_nums_spec sid page_text :
  StronglySorted (strict String.le) (paper_nums sid page_text)
  ∧ NoDup (paper_nums sid page_text)
  ∧ ∀ n, n ∈ paper_nums sid page_text ↔
         n ∈ findall_paper_pattern sid page_text.
Proof.
  unfold paper_nums. simpl.
  set (found := elements _).
  assert (NoDup (merge_sort String.le found)) as Hnd.
  { rewrite merge_sort_Permutation. apply NoDup_elements. }
  split; [|split; [done|]].
  - apply StronglySorted_strict; [apply _| |done].
    apply StronglySorted_merge_sort; apply _.
  - intros n. rewrite merge_sort_Permutation. subst found.
    by rewrite elem_of_elements, elem_of_list_to_set.
Qed.

Lemma extract_each_ids {World}
    (head : string → World → outcome response * World)
    page_text sid nums w :
  paper_id <$> (extract_each head page_text sid nums w).1
  = (λ n, sid +:+ n) <$> nums.
Proof.
  revert w. induction nums as [|n nums IH]; intros w; simpl; [done|].
  pose proof (extractor_derived_fields head page_text (sid +:+ n) w)
    as [Hid _].
  destruct (extract_paper_details_from_page head page_text (sid +:+ n) w)
    as [info w1].
  specialize (IH w1).
  destruct (extract_each head page_text sid nums w1) as [papers w2].
  simpl in *. by f_equal.
Qed.

(** C1 (amended). The segmenter returns one record per distinct suffix
    found in the text, its identifier being the session identifier
    followed by the suffix, in strictly ascending order of the suffixes
    compared as strings, character by character by code point (so [10]
    comes before [2]); no suffix is repeated, however often the text
    repeats an identifier, and every suffix is a non-empty string of
    digits that follows the session identifier somewhere in the text. *)
Theorem segmenter_sorted_by_code_points {World}
    (head : string → World → outcome response * World)
    (page_text sid : string) (w : World) :
  let papers := (extract_papers_from_session head page_text sid w).1 in
  let nums := paper_nums sid page_text in
  paper_id <$> papers = (λ n, sid +:+ n) <$> nums
  ∧ StronglySorted (strict String.le) nums
  ∧ NoDup nums
  ∧ (∀ n, n ∈ nums ↔ n ∈ findall_paper_pattern sid page_text)
  ∧ (∀ n, n ∈ nums →
          n ≠ "" ∧ Str.forallb is_digit n = true
          ∧ ∃ k, occurs_at (sid +:+ n) page_text k).
Proof.
  intros papers nums.
  destruct (paper_nums_spec sid page_text) as (Hsorted & Hnd & Hin).
  split; [|split; [done|split; [done|split; [done|]]]].
  - subst papers nums. unfold extract_papers_from_session.
    destruct (findall_paper_pattern sid page_text) as [|m ms] eqn:Hfound.
    + unfold paper_nums. by rewrite Hfound.
    + apply extract_each_ids.
  - intros n Hn%Hin. by eapply findall_go_sound.
Qed.

(** C1 as stated fails: the suffixes are compared as strings, so [10]
    comes before [2], and [01] and [1] are both kept. *)
Lemma segmenter_integer_order_counterexample :
  paper_nums "MOFAA" "MOFAA2 MOFAA10" = ["10"; "2"]
  ∧ int_of_suffix <$> paper_nums "MOFAA" "MOFAA2 MOFAA10" = [10%Z; 2%Z]
  ∧ ¬ StronglySorted Z.lt
        (int_of_suffix <$> paper_nums "MOFAA" "MOFAA2 MOFAA10")
  ∧ paper_id <$>
      (extract_papers_from_session offline "MOFAA2 MOFAA10" "MOFAA" ()).1
    = ["MOFAA10"; "MOFAA2"]
  ∧ int_of_suffix <$> paper_nums "MOFAA" "MOFAA1 MOFAA01" = [1%Z; 1%Z].
Proof.
  split; [|split; [|split; [|split]]]; try (vm_compute; reflexivity).
  change (int_of_suffix <$> paper_nums "MOFAA" "MOFAA2 MOFAA10")
    with [10%Z; 2%Z].
  intros H. apply StronglySorted_cons in H as [H _].
  apply Forall_cons in H as [H _]. lia.
Qed.

(** ** Lines of a section *)

Lemma forallb_rev_app p s1 s2 :
  Str.forallb p (String.rev_app s1 s2)
  = Str.forallb p s1 && Str.forallb p s2.
Proof.
  revert s2. induction s1 as [|c s1 IH]; intros s2; simpl; [done|].
  rewrite IH. simpl. destruct (p c), (Str.forallb p s1); done.
Qed.

Lemma split_go_free sep cur s piece :
  free_of sep cur → piece ∈ Str.split_go sep cur s → free_of sep piece.
Proof.
  unfold free_of. revert cur. induction s as [|c s IH]; intros cur Hcur; simpl.
  - intros ->%list_elem_of_singleton.
    unfold String.rev. by rewrite forallb_rev_app, Hcur.
  - destruct (Ascii.eqb c sep) eqn:Hc.
    + intros [->|Hin]%elem_of_cons.
      * unfold String.rev. by rewrite forallb_rev_app, Hcur.
      * by apply (IH "").
    + apply IH. simpl. by rewrite Hc, Hcur.
Qed.

Lemma lstrip_forallb p s :
  Str.forallb p s = true → Str.forallb p (Str.lstrip s) = true.
Proof.
  induction s as [|c s IH]; simpl; [done|].
  destruct (is_space c); [|done].
  intros [_ H]%andb_true_iff. by apply IH.
Qed.

Lemma rstrip_forallb p s :
  Str.forallb p s = true → Str.forallb p (Str.rstrip s) = true.
Proof.
  induction s as [|c s IH]; simpl; [done|].
  intros [Hc H]%andb_true_iff. specialize (IH H).
  destruct (Str.rstrip s) as [|c' r].
  - destruct (is_space c); simpl; [done|]. by rewrite Hc.
  - simpl in *. by rewrite Hc, IH.
Qed.

Lemma strip_free c s : free_of c s → free_of c (Str.strip s).
Proof. intros H. by apply rstrip_forallb, lstrip_forallb. Qed.

Lemma content_lines_free paper_content line :
  line ∈ content_lines paper_content → free_of "010" line.
Proof.
  unfold content_lines.
  intros (piece & -> & [_ Hin]%list_elem_of_filter)%list_elem_of_fmap.
  by apply strip_free, (split_go_free _ "" paper_content).
Qed.

Lemma section_lines_free page_text pid lines line :
  section_lines page_text pid = Some lines →
  line ∈ lines → free_of "010" line.
Proof.
  intros (start & _ & ->)%section_lines_Some. apply content_lines_free.
Qed.

Lemma match_page_number_iff line :
  free_of "010" line →
  match_page_number line = true ↔ purely_numeric line.
Proof.
  unfold free_of, match_page_number, purely_numeric.
  destruct line as [|c1 [|c2 [|c3 [|c4 line]]]]; simpl; intros Hfree;
    repeat match goal with
           | H : _ && _ = true |- _ => apply andb_true_iff in H as [? ?]
           | H : negb _ = true |- _ => apply negb_true_iff in H
           end;
    repeat match goal with
           | |- context [is_digit ?c] => destruct (is_digit c); simpl
           end;
    repeat match goal with
           | H : Ascii.eqb _ _ = false |- _ => rewrite H; clear H
           end;
    simpl; (split; [intros ?|intros [? ?]]); try done; try lia;
    try (split; [lia|done]).
Qed.

Lemma find_page_number_first pre line post :
  Forall (free_of "010") (pre ++ line :: post) →
  Forall (λ l, ¬ purely_numeric l) pre → purely_numeric line →
  find_page_number (pre ++ line :: post) = Some line.
Proof.
  induction pre as [|l pre IH]; simpl.
  - intros [Hfree _]%Forall_cons _ Hnum.
    by rewrite (proj2 (match_page_number_iff line Hfree) Hnum).
  - intros [Hfree Hrest]%Forall_cons [Hl Hpre]%Forall_cons Hnum.
    destruct (match_page_number l) eqn:Hm.
    + by apply match_page_number_iff in Hm.
    + by apply IH.
Qed.

Lemma find_page_number_none lines :
  Forall (free_of "010") lines →
  Forall (λ l, ¬ purely_numeric l) lines →
  find_page_number lines = None.
Proof.
  induction lines as [|l lines IH]; simpl; [done|].
  intros [Hfree Hrest]%Forall_cons [Hl Hlines]%Forall_cons.
  destruct (match_page_number l) eqn:Hm.
  - by apply match_page_number_iff in Hm.
  - by apply IH.
Qed.

(** ** Classification of the lines *)

Lemma classify_line_spec t p acc l :
  let acc' := classify_line t p acc l in
  author_lines acc' =
    author_lines acc
    ++ filter (λ l, l ≠ t ∧ l ≠ p ∧ is_author_line l = true) [l]
  ∧ institution_lines acc' =
    institution_lines acc
    ++ filter (λ l, l ≠ t ∧ l ≠ p ∧ is_author_line l = false
                    ∧ is_institution_line l = true) [l]
  ∧ abstract_lines acc' =
    abstract_lines acc
    ++ filter (λ l, l ≠ t ∧ l ≠ p ∧ is_author_line l = false
                    ∧ is_institution_line l = false
                    ∧ is_abstract_line l = true) [l].
Proof.
  unfold classify_line.
  destruct (String.eqb_spec l t) as [Ht|Ht], (String.eqb_spec l p) as [Hp|Hp],
    (is_author_line l) eqn:Ha, (is_institution_line l) eqn:Hi,
    (is_abstract_line l) eqn:Hb; simpl;
    rewrite !filter_cons, !filter_nil;
    repeat case_decide; simpl; rewrite ?app_nil_r;
    try done; exfalso; intuition congruence.
Qed.

Lemma classify_lines_spec t p lines :
  let lists := classify_lines t p lines in
  author_lines lists =
    filter (λ l, l ≠ t ∧ l ≠ p ∧ is_author_line l = true) lines
  ∧ institution_lines lists =
    filter (λ l, l ≠ t ∧ l ≠ p ∧ is_author_line l = false
                 ∧ is_institution_line l = true) lines
  ∧ abstract_lines lists =
    filter (λ l, l ≠ t ∧ l ≠ p ∧ is_author_line l = false
                 ∧ is_institution_line l = false
                 ∧ is_abstract_line l = true) lines.
Proof.
  unfold classify_lines.
  set (acc0 := {| author_lines := []; institution_lines := [];
                  abstract_lines := [] |}).
  change (filter (λ l, l ≠ t ∧ l ≠ p ∧ is_author_line l = true) lines)
    with (author_lines acc0
          ++ filter (λ l, l ≠ t ∧ l ≠ p ∧ is_author_line l = true) lines).
  change (filter (λ l, l ≠ t ∧ l ≠ p ∧ is_author_line l = false
                       ∧ is_institution_line l = true) lines)
    with (institution_lines acc0
          ++ filter (λ l, l ≠ t ∧ l ≠ p ∧ is_author_line l = false
                          ∧ is_institution_line l = true) lines).
  change (filter (λ l, l ≠ t ∧ l ≠ p ∧ is_author_line l = false
                       ∧ is_institution_line l = false
                       ∧ is_abstract_line l = true) lines)
    with (abstract_lines acc0
          ++ filter (λ l, l ≠ t ∧ l ≠ p ∧ is_author_line l = false
                          ∧ is_institution_line l = false
                          ∧ is_abstract_line l = true) lines).
  generalize acc0. clear acc0.
  induction lines as [|l lines IH]; intros acc.
  - simpl. by rewrite !filter_nil, !app_nil_r.
  - cbn [foldl]. destruct (IH (classify_line t p acc l)) as (-> & -> & ->).
    destruct (classify_line_spec t p acc l) as (-> & -> & ->).
    rewrite <- !app_assoc, <- !filter_app. done.
Qed.

Lemma process_authors_bind ls :
  process_authors ls = ls ≫= split_authors.
Proof.
  assert (∀ acc, foldl (λ all_authors author_line,
                          all_authors ++ split_authors author_line) acc ls
                 = acc ++ (ls ≫= split_authors)) as H.
  { induction ls as [|l ls IH]; intros acc; simpl.
    - by rewrite app_nil_r.
    - by rewrite IH, app_assoc. }
  destruct ls as [|l ls]; [done|]. unfold process_authors. by rewrite H.
Qed.

(** The textual fields, read off the lines of the section *)
Lemma fill_text_fields_text pid lines :
  let info := fill_text_fields (initial_paper_info pid) lines in
  title info = match lines with line :: _ => line | [] => "" end
  ∧ page_number info = from_option id "" (find_page_number lines)
  ∧ authors info =
    filter (λ l, l ≠ title info ∧ l ≠ page_number info
                 ∧ is_author_line l = true) lines ≫= split_authors
  ∧ institutions info =
    filter (λ l, l ≠ title info ∧ l ≠ page_number info
                 ∧ is_author_line l = false
                 ∧ is_institution_line l = true) lines
  ∧ abstract info =
    Str.join " "
      (filter (λ l, l ≠ title info ∧ l ≠ page_number info
                    ∧ is_author_line l = false
                    ∧ is_institution_line l = false
                    ∧ is_abstract_line l = true) lines).
Proof.
  unfold fill_text_fields. cbn [title page_number authors institutions abstract
                                initial_paper_info].
  set (t := match lines with line :: _ => line | [] => "" end).
  set (p := from_option id "" (find_page_number lines)).
  destruct (classify_lines_spec t p lines) as (Ha & Hi & Hb).
  split; [done|]. split; [done|]. rewrite <- Ha, <- Hi, <- Hb.
  split; [|split].
  - destruct (author_lines _) eqn:E; [done|].
    by rewrite process_authors_bind.
  - by destruct (institution_lines _).
  - by destruct (abstract_lines _).
Qed.

Lemma extractor_text_fields {World}
    (head : string → World → outcome response * World)
    page_text pid w lines :
  section_lines page_text pid = Some lines →
  let info := (extract_paper_details_from_page head page_text pid w).1 in
  let filled := fill_text_fields (initial_paper_info pid) lines in
  title info = title filled ∧ page_number info = page_number filled
  ∧ authors info = authors filled ∧ institutions info = institutions filled
  ∧ abstract info = abstract filled.
Proof.
  intros Hlines. unfold extract_paper_details_from_page. rewrite Hlines.
  destruct (check_availability_fields head
              (fill_text_fields (initial_paper_info pid) lines) w)
    as (_ & H1 & H2 & H3 & H4 & H5 & _).
  by repeat split.
Qed.

Lemma existsb_false {A} (f : A → bool) l :
  existsb f l = false ↔ ∀ x, x ∈ l → f x = false.
Proof.
  induction l as [|y l IH]; simpl.
  - split; [|done]. by intros _ x ?%elem_of_nil.
  - rewrite orb_false_iff, IH. split.
    + intros [Hy Hl] x [->|Hx]%elem_of_cons; auto.
    + intros H. split; [apply H; left|intros x Hx; apply H; by right].
Qed.

Lemma split_go_length sep cur s : 1 ≤ length (Str.split_go sep cur s).
Proof.
  revert cur. induction s as [|c s IH]; intros cur; simpl; [lia|].
  destruct (Ascii.eqb c sep); simpl; [lia|apply IH].
Qed.

Lemma split_length_separator sep s :
  (∃ k, occurs_at (String sep "") s k) → 2 ≤ length (Str.split sep s).
Proof.
  intros (k & pre & post & -> & _). unfold Str.split.
  assert (∀ cur, 2 ≤ length (Str.split_go sep cur
                               (pre +:+ String sep "" +:+ post))) as H;
    [|apply H].
  induction pre as [|c pre IH]; intros cur.
  - change ("" +:+ String sep "" +:+ post) with (String sep post).
    simpl. rewrite Ascii.eqb_refl. simpl.
    pose proof (split_go_length sep "" post). lia.
  - rewrite str_app_cons. simpl. destruct (Ascii.eqb c sep); simpl.
    + pose proof (split_go_length sep "" (pre +:+ String sep "" +:+ post)). lia.
    + apply IH.
Qed.

Lemma is_author_line_iff line :
  is_author_line line = true ↔
  (∃ k, occurs_at "," line k)
  ∧ ∀ keyword, keyword ∈ author_stop_keywords →
               ∀ k, ¬ occurs_at keyword (Str.lower line) k.
Proof.
  unfold is_author_line.
  rewrite !andb_true_iff, negb_true_iff, existsb_false, contains_true.
  setoid_rewrite contains_false. split.
  - intros [[Hc _] Hk]. done.
  - intros [Hc Hk]. split; [split; [done|]|done].
    apply Nat.ltb_lt. pose proof (split_length_separator _ _ Hc). lia.
Qed.

Lemma truthy_iff s : Str.truthy s ↔ s ≠ "".
Proof. by destruct s. Qed.

Lemma split_authors_tokens line :
  split_authors line
  = Str.strip <$> filter (λ a, Str.strip a ≠ "") (Str.split "," line).
Proof.
  unfold split_authors. f_equal. apply list_filter_iff.
  intros a. apply truthy_iff.
Qed.

(** C5 (amended). A line of the section other than those equal to the
    title or to the page number is an author line exactly when it contains
    a comma (it then splits into two or more comma-separated tokens, empty
    ones counted) and its lower-cased text contains none of the keywords
    funding, doi, received, accepted.  The authors of the record are the
    tokens of the author lines, in the order of the lines and of the
    tokens within each line: each line is split at its commas, each token
    stripped, and the tokens that are empty after stripping dropped;
    repeated names are kept. *)
Theorem author_lines_rule {World}
    (head : string → World → outcome response * World)
    (page_text pid : string) (w : World) (lines : list string) :
  section_lines page_text pid = Some lines →
  let info := (extract_paper_details_from_page head page_text pid w).1 in
  authors info =
    (filter (λ l, l ≠ title info ∧ l ≠ page_number info
                  ∧ is_author_line l = true) lines
     ≫= λ line, Str.strip <$>
                  filter (λ a, Str.strip a ≠ "") (Str.split "," line))
  ∧ (∀ line,
       is_author_line line = true ↔
       (∃ k, occurs_at "," line k)
       ∧ ∀ keyword, keyword ∈ ["funding"; "doi"; "received"; "accepted"] →
                    ∀ k, ¬ occurs_at keyword (Str.lower line) k)
  ∧ (∀ line, (∃ k, occurs_at "," line k) →
             2 ≤ length (Str.split "," line)).
Proof.
  intros Hlines info.
  destruct (extractor_text_fields head page_text pid w lines Hlines)
    as (Ht & Hp & Ha & _).
  destruct (fill_text_fields_text pid lines) as (_ & _ & Ha' & _).
  split; [|split].
  - subst info. cbn zeta in *. rewrite Ha, Ha', Ht, Hp.
    generalize (filter
      (λ l, l ≠ title (fill_text_fields (initial_paper_info pid) lines)
            ∧ l ≠ page_number (fill_text_fields (initial_paper_info pid) lines)
            ∧ is_author_line l = true) lines).
    intros ls. induction ls as [|l ls IH]; [done|].
    cbn [mbind list_bind]. by rewrite split_authors_tokens, IH.
  - apply is_author_line_iff.
  - apply split_length_separator.
Qed.

Lemma author_lines_rule_witness :
  section_lines "MOFAA1 Cavity tests
A. Smith, B. Jones
12
C. Wu,
Funding: DOE, NSF
A. Smith, D. Lee" "MOFAA1"
    = Some ["Cavity tests"; "A. Smith, B. Jones"; "12"; "C. Wu,";
            "Funding: DOE, NSF"; "A. Smith, D. Lee"]
  ∧ authors (extract_paper_details_from_page offline "MOFAA1 Cavity tests
A. Smith, B. Jones
12
C. Wu,
Funding: DOE, NSF
A. Smith, D. Lee" "MOFAA1" ()).1
    = ["A. Smith"; "B. Jones"; "C. Wu"; "A. Smith"; "D. Lee"].
Proof.
  split; [vm_compute; reflexivity|].
  etrans.
  - apply (author_lines_rule offline "MOFAA1 Cavity tests
A. Smith, B. Jones
12
C. Wu,
Funding: DOE, NSF
A. Smith, D. Lee" "MOFAA1" ()
             ["Cavity tests"; "A. Smith, B. Jones"; "12"; "C. Wu,";
              "Funding: DOE, NSF"; "A. Smith, D. Lee"]).
    vm_compute. reflexivity.
  - vm_compute. reflexivity.
Defined.

(** C5 as stated fails: [A. Smith,] has a single non-empty token, yet the
    code takes it as an author line. *)
Lemma author_line_nonempty_tokens_counterexample :
  is_author_line "A. Smith," = true
  ∧ ¬ claimed_author_line "A. Smith,"
  ∧ Str.split "," "A. Smith," = ["A. Smith"; ""]
  ∧ authors (extract_paper_details_from_page offline "MOFAA1 Cavity tests
A. Smith," "MOFAA1" ()).1 = ["A. Smith"].
Proof.
  split; [vm_compute; reflexivity|]. split; [|split; vm_compute; reflexivity].
  intros (_ & H & _). vm_compute in H. lia.
Qed.

(** C6. The author check comes before the institution check: a line of
    the section that passes both is appended to the author lines and to
    nothing else, so its tokens are among the authors of the record and
    the line is not among its institutions.  The line
    [Jefferson Lab, A. Smith, B. Jones] passes both checks. *)
Theorem author_check_precedes_institution_check {World}
    (head : string → World → outcome response * World)
    (page_text pid : string) (w : World) (lines : list string)
    (line : string) :
  section_lines page_text pid = Some lines →
  line ∈ lines →
  let info := (extract_paper_details_from_page head page_text pid w).1 in
  line ≠ title info → line ≠ page_number info →
  is_author_line line = true → is_institution_line line = true →
  (∀ acc, classify_line (title info) (page_number info) acc line
          = {| author_lines := author_lines acc ++ [line];
               institution_lines := institution_lines acc;
               abstract_lines := abstract_lines acc |})
  ∧ (∀ a, a ∈ split_authors line → a ∈ authors info)
  ∧ (line ∉ institutions info)
  ∧ is_author_line "Jefferson Lab, A. Smith, B. Jones" = true
  ∧ is_institution_line "Jefferson Lab, A. Smith, B. Jones" = true.
Proof.
  intros Hlines Hin info Ht Hp Ha Hi.
  destruct (extractor_text_fields head page_text pid w lines Hlines)
    as (Et & Ep & Ea & Ei & _).
  destruct (fill_text_fields_text pid lines) as (_ & _ & Ea' & Ei' & _).
  fold info in Et, Ep, Ea, Ei. cbn zeta in *.
  rewrite <- Et, <- Ep in Ea', Ei'. rewrite <- Ea in Ea'. rewrite <- Ei in Ei'.
  split; [|split; [|split; [|split]]].
  - intros acc. unfold classify_line.
    apply String.eqb_neq in Ht, Hp. by rewrite Ht, Hp, Ha.
  - intros a Ha'. rewrite Ea'. apply list_elem_of_bind.
    exists line. split; [done|]. by apply list_elem_of_filter.
  - rewrite Ei'. intros [(_ & _ & Hfalse & _) _]%list_elem_of_filter. congruence.
  - vm_compute. reflexivity.
  - vm_compute. reflexivity.
Qed.

Lemma author_check_precedes_institution_check_witness :
  authors (extract_paper_details_from_page offline "MOFAA1 Cavity tests
Jefferson Lab, A. Smith, B. Jones" "MOFAA1" ()).1
    = ["Jefferson Lab"; "A. Smith"; "B. Jones"]
  ∧ institutions (extract_paper_details_from_page offline "MOFAA1 Cavity tests
Jefferson Lab, A. Smith, B. Jones" "MOFAA1" ()).1 = []
  ∧ ("Jefferson Lab, A. Smith, B. Jones"
       ∉ institutions (extract_paper_details_from_page offline
                         "MOFAA1 Cavity tests
Jefferson Lab, A. Smith, B. Jones" "MOFAA1" ()).1).
Proof.
  split; [vm_compute; reflexivity|]. split; [vm_compute; reflexivity|].
  apply (author_check_precedes_institution_check offline "MOFAA1 Cavity tests
Jefferson Lab, A. Smith, B. Jones" "MOFAA1" ()
           ["Cavity tests"; "Jefferson Lab, A. Smith, B. Jones"]
           "Jefferson Lab, A. Smith, B. Jones").
  - vm_compute. reflexivity.
  - apply list_elem_of_further, list_elem_of_here.
  - vm_compute. discriminate.
  - vm_compute. discriminate.
  - vm_compute. reflexivity.
  - vm_compute. reflexivity.
Defined.

Lemma extractor_page_number {World}
    (head : string → World → outcome response * World)
    page_text pid w lines :
  section_lines page_text pid = Some lines →
  Forall (free_of "010") lines
  ∧ page_number (extract_paper_details_from_page head page_text pid w).1
    = from_option id "" (find_page_number lines).
Proof.
  intros Hlines. split.
  - apply Forall_forall. intros l Hl. by eapply section_lines_free.
  - destruct (extractor_text_fields head page_text pid w lines Hlines)
      as (_ & -> & _).
    by destruct (fill_text_fields_text pid lines) as (_ & -> & _).
Qed.

(** C8. The page number of the record is the first line of the section
    that consists of one to three digits; the lines after it, numeric or
    not, do not change it, and without such a line it stays empty.  For
    the lines [Advances in SRF Cavities], [12], [A. Smith, B. Jones],
    [99] it is [12]. *)
Theorem page_number_is_first_numeric_line {World}
    (head : string → World → outcome response * World)
    (page_text pid : string) (w : World) (lines : list string) :
  section_lines page_text pid = Some lines →
  let info := (extract_paper_details_from_page head page_text pid w).1 in
  (∀ pre line post,
     lines = pre ++ line :: post →
     Forall (λ l, ¬ purely_numeric l) pre → purely_numeric line →
     page_number info = line)
  ∧ (Forall (λ l, ¬ purely_numeric l) lines → page_number info = "")
  ∧ (∀ pid',
       page_number
         (fill_text_fields (initial_paper_info pid')
            ["Advances in SRF Cavities"; "12"; "A. Smith, B. Jones"; "99"])
       = "12").
Proof.
  intros Hlines info.
  destruct (extractor_page_number head page_text pid w lines Hlines)
    as [Hfree Ep].
  fold info in Ep. split; [|split].
  - intros pre line post -> Hpre Hline.
    by rewrite Ep, (find_page_number_first pre line post).
  - intros Hnone. by rewrite Ep, find_page_number_none.
  - intros pid'. vm_compute. reflexivity.
Qed.

Lemma page_number_is_first_numeric_line_witness :
  section_lines "MOFAA1
Advances in SRF Cavities
12
A. Smith, B. Jones
99
" "MOFAA1"
    = Some ["Advances in SRF Cavities"; "12"; "A. Smith, B. Jones"; "99"]
  ∧ page_number (extract_paper_details_from_page pdf_server "MOFAA1
Advances in SRF Cavities
12
A. Smith, B. Jones
99
" "MOFAA1" ()).1 = "12".
Proof.
  split; [vm_compute; reflexivity|].
  apply (proj1 (page_number_is_first_numeric_line pdf_server "MOFAA1
Advances in SRF Cavities
12
A. Smith, B. Jones
99
" "MOFAA1" ()
           ["Advances in SRF Cavities"; "12"; "A. Smith, B. Jones"; "99"]
           eq_refl) ["Advances in SRF Cavities"] "12"
           ["A. Smith, B. Jones"; "99"] eq_refl).
  - apply Forall_cons. split; [|apply Forall_nil_2].
    intros [Hlen _]. simpl in Hlen. lia.
  - split; [simpl; lia|reflexivity].
Defined.

(** C10. The scan for the page number starts at the first line of the
    section: when that line, which becomes the title, consists of one to
    three digits, it is the page number as well. *)
Theorem numeric_first_line_is_title_and_page_number {World}
    (head : string → World → outcome response * World)
    (page_text pid : string) (w : World) (line : string)
    (rest : list string) :
  section_lines page_text pid = Some (line :: rest) →
  purely_numeric line →
  let info := (extract_paper_details_from_page head page_text pid w).1 in
  title info = line ∧ page_number info = line.
Proof.
  intros Hlines Hnum info.
  destruct (extractor_text_fields head page_text pid w _ Hlines)
    as (Et & _).
  destruct (fill_text_fields_text pid (line :: rest)) as (Et' & _).
  fold info in Et. cbn zeta in *. rewrite <- Et in Et'.
  split; [done|].
  destruct (extractor_page_number head page_text pid w _ Hlines)
    as [Hfree Ep].
  fold info in Ep. rewrite Ep.
  pose proof (find_page_number_first [] line rest Hfree (Forall_nil_2 _) Hnum)
    as E.
  change ([] ++ line :: rest) with (line :: rest) in E. by rewrite E.
Qed.

Lemma numeric_first_line_is_title_and_page_number_witness :
  section_lines "MOFAA1 1 12
Title" "MOFAA1" = Some ["12"; "Title"]
  ∧ purely_numeric "12"
  ∧ title (extract_paper_details_from_page offline "MOFAA1 1 12
Title" "MOFAA1" ()).1 = "12"
  ∧ page_number (extract_paper_details_from_page offline "MOFAA1 1 12
Title" "MOFAA1" ()).1 = "12".
Proof.
  split; [vm_compute; reflexivity|].
  split; [split; [simpl; lia|reflexivity]|].
  apply (numeric_first_line_is_title_and_page_number offline "MOFAA1 1 12
Title" "MOFAA1" () "12" ["Title"] eq_refl).
  split; [simpl; lia|reflexivity].
Defined.

(** ** The session counts *)

Lemma sum_ones {A} (l : list A) :
  sum ((λ _, 1%Z) <$> l) = Z.of_nat (length l).
Proof.
  unfold sum.
  assert (∀ acc, foldl Z.add acc ((λ _ : A, 1%Z) <$> l)
                 = (acc + Z.of_nat (length l))%Z) as H; [|by rewrite H].
  induction l as [|x l IH]; intros acc; simpl; [lia|].
  rewrite IH. lia.
Qed.

Lemma count_available_recount flag papers :
  count_available flag papers
  = Z.of_nat (length (filter (λ p, flag p = true) papers)).
Proof.
  unfold count_available. rewrite sum_ones. do 2 f_equal.
  apply list_filter_iff. intros p. apply Is_true_true.
Qed.

(** C9. The counts of an emitted session are recounts of its paper
    sequence: the paper count is the length of the sequence, and the
    available count of each resource type is the number of papers of the
    sequence whose flag for that type is true.  They are computed from the
    sequence that is written, whatever it is. *)
Theorem session_counts_are_recounts
    (session : session_info) (papers : list paper_info)
    (scrape_time : string) :
  let data := save_session_data session papers scrape_time in
  let txt := save_session_txt session papers in
  sd_papers data = papers
  ∧ sd_paper_count data = Z.of_nat (length (sd_papers data))
  ∧ txt_paper_count txt = Z.of_nat (length papers)
  ∧ available_presentations txt =
    Z.of_nat (length (filter (λ p, presentation_available p = true) papers))
  ∧ available_papers_count txt =
    Z.of_nat (length (filter (λ p, paper_available p = true) papers))
  ∧ available_posters txt =
    Z.of_nat (length (filter (λ p, poster_available p = true) papers)).
Proof.
  simpl. rewrite !count_available_recount. by repeat split.
Qed.

(** ** Sample evaluations *)

Example lower_identifier : Str.lower "MOFAA1" = "mofaa1".
Proof. reflexivity. Qed.

Example strip_line : Str.strip "  A. Smith, B. Jones  " = "A. Smith, B. Jones".
Proof. reflexivity. Qed.

Example split_commas :
  Str.split "," "a,,b," = ["a"; ""; "b"; ""].
Proof. reflexivity. Qed.

Example find_marker : Str.find "Title DOI: x" "DOI:" = 6%Z.
Proof. reflexivity. Qed.

Example find_absent : Str.find "Title" "DOI:" = (-1)%Z.
Proof. reflexivity. Qed.

Example findall_resumes_after_match :
  findall_paper_pattern "MOFAA" "MOFAA12 MOFAA3xMOFAA MOFAA12"
  = ["12"; "3"; "12"].
Proof. reflexivity. Qed.

Example identifier_swallows_digits :
  section_lines "MOFAA12 Title of twelve" "MOFAA1"
  = Some ["Title of twelve"].
Proof. vm_compute. reflexivity. Qed.

Example probe_answers :
  (check_pdf_exists pdf_server "https://example.org/a.pdf" ()).1 = true
  ∧ (check_pdf_exists offline "https://example.org/a.pdf" ()).1 = false.
Proof. split; vm_compute; reflexivity. Qed.

(** ** The segmenter and the extractor together *)

Lemma extract_papers_from_session_ids {World}
    (head : string → World → outcome response * World) page_text sid w :
  paper_id <$> (extract_papers_from_session head page_text sid w).1
  = (λ n, sid +:+ n) <$> paper_nums sid page_text.
Proof.
  unfold extract_papers_from_session.
  destruct (findall_paper_pattern sid page_text) as [|m ms] eqn:Hfound.
  - unfold paper_nums. by rewrite Hfound.
  - apply extract_each_ids.
Qed.

Lemma paper_nums_sound sid page_text n :
  n ∈ paper_nums sid page_text →
  n ≠ "" ∧ Str.forallb is_digit n = true
  ∧ ∃ k, occurs_at (sid +:+ n) page_text k.
Proof.
  destruct (paper_nums_spec sid page_text) as (_ & _ & Hin).
  intros Hn%Hin. by eapply findall_go_sound.
Qed.

(** X1. The identifiers of the records of one session are pairwise
    distinct, and each is the session identifier followed by a non-empty
    string of digits. *)
Theorem session_paper_ids_unique {World}
    (head : string → World → outcome response * World)
    (page_text sid : string) (w : World) :
  let papers := (extract_papers_from_session head page_text sid w).1 in
  NoDup (paper_id <$> papers)
  ∧ Forall (λ info, ∃ digits, paper_id info = sid +:+ digits
                              ∧ digits ≠ ""
                              ∧ Str.forallb is_digit digits = true) papers.
Proof.
  intros papers. subst papers.
  pose proof (extract_papers_from_session_ids head page_text sid w) as Hids.
  destruct (paper_nums_spec sid page_text) as (_ & Hnd & _).
  split.
  - rewrite Hids. by apply (NoDup_fmap_2 _).
  - apply Forall_forall. intros info Hinfo.
    assert (paper_id info ∈ (λ n, sid +:+ n) <$> paper_nums sid page_text)
      as (n & -> & Hn)%list_elem_of_fmap.
    { rewrite <- Hids. by apply list_elem_of_fmap_2. }
    destruct (paper_nums_sound _ _ _ Hn) as (? & ? & _). eauto.
Qed.

Lemma occurs_at_located pid page_text k :
  occurs_at pid page_text k →
  is_Some (Str.search (match_paper_id pid) page_text).
Proof.
  intros [Hk Hp]%occurs_at_iff.
  destruct (Str.search (match_paper_id pid) page_text) as [r|] eqn:Hs; [eauto|].
  apply search_None with (j := k) in Hs.
  unfold match_paper_id in Hs. by rewrite Hp in Hs.
Qed.

(** X2. Every record the segmenter returns belongs to an identifier that
    the extractor finds in the page text, so none of them is the bare
    record of an identifier that was not located. *)
Theorem segmenter_papers_are_located {World}
    (head : string → World → outcome response * World)
    (page_text sid : string) (w : World) :
  Forall (λ info, (∃ k, occurs_at (paper_id info) page_text k)
                  ∧ is_Some (section_lines page_text (paper_id info)))
         (extract_papers_from_session head page_text sid w).1.
Proof.
  apply Forall_forall. intros info Hinfo.
  assert (paper_id info ∈ (λ n, sid +:+ n) <$> paper_nums sid page_text)
    as (n & -> & Hn)%list_elem_of_fmap.
  { rewrite <- (extract_papers_from_session_ids head page_text sid w).
    by apply list_elem_of_fmap_2. }
  destruct (paper_nums_sound _ _ _ Hn) as (_ & _ & k & Hk).
  split; [eauto|].
  unfold section_lines.
  destruct (occurs_at_located _ _ _ Hk) as [[a b] ->]. eauto.
Qed.

Lemma match_paper_pattern_None_nil sid : match_paper_pattern sid "" = None.
Proof.
  unfold match_paper_pattern. destruct (String.prefix sid ""); [|done].
  by destruct (String.length sid).
Qed.

Lemma findall_go_nil sid s :
  findall_go sid 0 s = [] → ∀ j, match_paper_pattern sid (Str.skip j s) = None.
Proof.
  induction s as [|c s IH]; simpl.
  - intros _ j. rewrite skip_nil. apply match_paper_pattern_None_nil.
  - destruct (match_paper_pattern sid (String c s)) eqn:Hm; [done|].
    intros Hnil [|j]; [done|]. simpl. by apply IH.
Qed.

Lemma occurs_digit_matches sid d s k :
  is_digit d = true → occurs_at (sid +:+ String d "") s k →
  is_Some (match_paper_pattern sid (Str.skip k s)).
Proof.
  intros Hd (pre & post & -> & <-). rewrite skip_app, str_app_assoc.
  unfold match_paper_pattern.
  rewrite (proj2 (prefix_iff sid _)) by eauto.
  rewrite skip_app, str_app_cons. simpl. rewrite Hd. simpl. eauto.
Qed.

(** X3. The segmenter returns no record exactly when the page text has no
    place where the session identifier is followed by a digit; in that
    case it makes no request at all. *)
Theorem segmenter_empty_iff_no_occurrence {World}
    (head : string → World → outcome response * World)
    (page_text sid : string) (w : World) :
  ((extract_papers_from_session head page_text sid w).1 = [] ↔
   ∀ d k, is_digit d = true → ¬ occurs_at (sid +:+ String d "") page_text k)
  ∧ ((extract_papers_from_session head page_text sid w).1 = [] →
     (extract_papers_from_session head page_text sid w).2 = w).
Proof.
  assert (findall_paper_pattern sid page_text = [] ↔
          ∀ d k, is_digit d = true →
                 ¬ occurs_at (sid +:+ String d "") page_text k) as Hiff.
  { split.
    - intros Hnil d k Hd Hocc.
      destruct (occurs_digit_matches _ _ _ _ Hd Hocc) as [x Hx].
      by rewrite (findall_go_nil _ _ Hnil) in Hx.
    - intros Hno.
      destruct (findall_paper_pattern sid page_text) as [|m ms] eqn:Hf; [done|].
      assert (m ∈ findall_go sid 0 page_text) as Hm.
      { unfold findall_paper_pattern in Hf. rewrite Hf. left. }
      apply findall_go_sound in Hm as (Hne & Hdig & k & Hocc).
      destruct m as [|d m]; [done|]. simpl in Hdig.
      apply andb_true_iff in Hdig as [Hd _].
      destruct (Hno d k Hd). destruct Hocc as (pre & post & -> & <-).
      exists pre, (m +:+ post). split; [|done].
      by rewrite !str_app_assoc, !str_app_cons. }
  assert ((extract_papers_from_session head page_text sid w).1 = [] →
          findall_paper_pattern sid page_text = []) as Hback.
  { intros Hnil.
    pose proof (extract_papers_from_session_ids head page_text sid w) as Hids.
    rewrite Hnil in Hids. symmetry in Hids. apply fmap_nil_inv in Hids.
    destruct (paper_nums_spec sid page_text) as (_ & _ & Hin).
    destruct (findall_paper_pattern sid page_text) as [|m ms]; [done|].
    assert (m ∈ paper_nums sid page_text) as Hm by (apply Hin; left).
    rewrite Hids in Hm. by apply elem_of_nil in Hm. }
  split.
  - rewrite <- Hiff. split; [done|].
    intros Hnil. unfold extract_papers_from_session. by rewrite Hnil.
  - intros Hnil%Hback. unfold extract_papers_from_session. by rewrite Hnil.
Qed.

(** ** The availability flags *)

Lemma extractor_located {World}
    (head : string → World → outcome response * World)
    page_text pid w lines :
  section_lines page_text pid = Some lines →
  extract_paper_details_from_page head page_text pid w
  = check_availability head (fill_text_fields (initial_paper_info pid) lines) w.
Proof.
  intros Hlines. unfold extract_paper_details_from_page. by rewrite Hlines.
Qed.

(** X4. For a located paper the three flags are the answers of the probe
    for the three URLs of the same record, asked in the order talk, paper,
    poster, each on the network as the previous request left it; nothing
    else touches the network. *)
Theorem availability_flags_are_probe_answers {World}
    (head : string → World → outcome response * World)
    (page_text pid : string) (w : World) (lines : list string) :
  section_lines page_text pid = Some lines →
  let result := extract_paper_details_from_page head page_text pid w in
  let talk := check_pdf_exists head (presentation_url result.1) w in
  let paper := check_pdf_exists head (paper_url result.1) talk.2 in
  let poster := check_pdf_exists head (poster_url result.1) paper.2 in
  presentation_available result.1 = talk.1
  ∧ paper_available result.1 = paper.1
  ∧ poster_available result.1 = poster.1
  ∧ result.2 = poster.2.
Proof.
  intros Hlines. cbn zeta.
  destruct (extractor_derived_fields head page_text pid w)
    as (_ & -> & -> & -> & _).
  rewrite (extractor_located head _ _ _ _ Hlines).
  unfold check_availability.
  set (filled := fill_text_fields (initial_paper_info pid) lines).
  change (presentation_url filled)
    with (presentation_url (initial_paper_info pid)).
  change (paper_url filled) with (paper_url (initial_paper_info pid)).
  change (poster_url filled) with (poster_url (initial_paper_info pid)).
  destruct (check_pdf_exists head (presentation_url _) w) as [b1 w1].
  cbn [fst snd].
  destruct (check_pdf_exists head (paper_url _) w1) as [b2 w2].
  cbn [fst snd].
  destruct (check_pdf_exists head (poster_url _) w2) as [b3 w3].
  done.
Qed.

Lemma availability_flags_are_probe_answers_witness :
  section_lines "MOFAA1 Cavity tests" "MOFAA1" = Some ["Cavity tests"]
  ∧ presentation_available
      (extract_paper_details_from_page pdf_server "MOFAA1 Cavity tests"
         "MOFAA1" ()).1
    = (check_pdf_exists pdf_server
         "https://proceedings.jacow.org/srf2019/talks/mofaa1_talk.pdf" ()).1.
Proof.
  split; [vm_compute; reflexivity|].
  apply (availability_flags_are_probe_answers pdf_server
           "MOFAA1 Cavity tests" "MOFAA1" () ["Cavity tests"]).
  vm_compute. reflexivity.
Defined.

(** X5. The three flags are independent: for a located paper and any
    three Booleans there is a network on which the record gets exactly
    these flags for talk, paper and poster. *)
Theorem availability_flags_independent
    (page_text pid : string) (lines : list string) (b1 b2 b3 : bool) :
  section_lines page_text pid = Some lines →
  ∃ head : string → unit → outcome response * unit,
    let info := (extract_paper_details_from_page head page_text pid ()).1 in
    presentation_available info = b1
    ∧ paper_available info = b2
    ∧ poster_available info = b3.
Proof.
  intros Hlines.
  set (answer := λ b : bool, if b then (pdf_server "" ()).1 else Raised).
  set (talk_url := presentation_url (initial_paper_info pid)).
  set (pap_url := paper_url (initial_paper_info pid)).
  set (post_url := poster_url (initial_paper_info pid)).
  exists (λ url w,
            (if String.eqb url talk_url then answer b1
             else if String.eqb url pap_url then answer b2
             else answer b3, w)).
  cbn zeta. rewrite (extractor_located _ _ _ _ _ Hlines).
  unfold check_availability, check_pdf_exists.
  set (filled := fill_text_fields (initial_paper_info pid) lines).
  change (presentation_url filled) with talk_url.
  change (paper_url filled) with pap_url.
  change (poster_url filled) with post_url.
  assert (String.eqb pap_url talk_url = false) as -> by (vm_compute; reflexivity).
  assert (String.eqb post_url talk_url = false) as -> by (vm_compute; reflexivity).
  assert (String.eqb post_url pap_url = false) as -> by (vm_compute; reflexivity).
  rewrite !String.eqb_refl.
  destruct b1, b2, b3; vm_compute; done.
Qed.

Lemma availability_flags_independent_witness :
  section_lines "MOFAA1 Cavity tests" "MOFAA1" = Some ["Cavity tests"]
  ∧ ∃ head : string → unit → outcome response * unit,
      let info := (extract_paper_details_from_page head "MOFAA1 Cavity tests"
                     "MOFAA1" ()).1 in
      presentation_available info = true
      ∧ paper_available info = false
      ∧ poster_available info = true.
Proof.
  split; [vm_compute; reflexivity|].
  apply (availability_flags_independent "MOFAA1 Cavity tests" "MOFAA1"
           ["Cavity tests"] true false true).
  vm_compute. reflexivity.
Defined.

(** ** Institutions and abstract *)

Lemma existsb_true {A} (f : A → bool) l :
  existsb f l = true ↔ ∃ x, x ∈ l ∧ f x = true.
Proof.
  induction l as [|y l IH]; simpl.
  - split; [done|]. by intros (x & ?%elem_of_nil & _).
  - rewrite orb_true_iff, IH. split.
    + intros [Hy|(x & Hx & Hfx)]; [exists y|exists x]; split; auto; by constructor.
    + intros (x & [->|Hx]%elem_of_cons & Hfx); eauto.
Qed.

Lemma startswith_iff line p :
  Str.startswith line p = true ↔ occurs_at p line 0.
Proof.
  unfold Str.startswith. rewrite prefix_iff. split.
  - intros [post ->]. by exists "", post.
  - intros (pre & post & -> & Hpre). destruct pre; [|done]. by exists post.
Qed.

Lemma is_institution_line_iff line :
  is_institution_line line = true ↔
  ∃ keyword, keyword ∈ institution_keywords ∧ ∃ k, occurs_at keyword line k.
Proof.
  unfold is_institution_line. rewrite existsb_true.
  by setoid_rewrite contains_true.
Qed.

Lemma is_abstract_line_iff line :
  is_abstract_line line = true ↔
  20 < String.length line
  ∧ ∀ p, p ∈ abstract_stop_prefixes → ¬ occurs_at p line 0.
Proof.
  unfold is_abstract_line.
  rewrite andb_true_iff, negb_true_iff, existsb_false, Nat.ltb_lt.
  split; intros [Hlen Hp]; (split; [done|]); intros p Hin.
  - rewrite <- startswith_iff, (Hp p Hin). done.
  - apply not_true_is_false. rewrite startswith_iff. by apply Hp.
Qed.

(** X6. The institutions of a located paper are, verbatim and in the
    order of the text, the lines of its section that are not equal to the
    title or the page number, fail the author test and contain one of the
    institution keywords, spelled as listed (the test is case
    sensitive). *)
Theorem institutions_rule {World}
    (head : string → World → outcome response * World)
    (page_text pid : string) (w : World) (lines : list string) :
  section_lines page_text pid = Some lines →
  let info := (extract_paper_details_from_page head page_text pid w).1 in
  institutions info =
    filter (λ l, l ≠ title info ∧ l ≠ page_number info
                 ∧ is_author_line l = false
                 ∧ is_institution_line l = true) lines
  ∧ ∀ line,
      is_institution_line line = true ↔
      ∃ keyword,
        keyword ∈ ["University"; "Laboratory"; "Institute"; "Center";
                   "Corporation"; "School"; "Facility"; "National";
                   "Synchrotron"; "KEK"; "FRIB"; "LBNL"; "DESY"; "SLAC";
                   "CERN"; "Jefferson Lab"; "Argonne"]
        ∧ ∃ k, occurs_at keyword line k.
Proof.
  intros Hlines info.
  destruct (extractor_text_fields head page_text pid w lines Hlines)
    as (Ht & Hp & _ & Hi & _).
  destruct (fill_text_fields_text pid lines) as (_ & _ & _ & Hi' & _).
  split; [|apply is_institution_line_iff].
  subst info. cbn zeta in *. by rewrite Hi, Hi', Ht, Hp.
Qed.

Lemma institutions_rule_witness :
  section_lines "MOFAA1 Cavity tests
A. Smith, Argonne University
Argonne National Laboratory
argonne national laboratory
DESY" "MOFAA1"
    = Some ["Cavity tests"; "A. Smith, Argonne University";
            "Argonne National Laboratory"; "argonne national laboratory";
            "DESY"]
  ∧ institutions (extract_paper_details_from_page offline "MOFAA1 Cavity tests
A. Smith, Argonne University
Argonne National Laboratory
argonne national laboratory
DESY" "MOFAA1" ()).1
    = ["Argonne National Laboratory"; "DESY"].
Proof.
  split; [vm_compute; reflexivity|].
  etrans.
  - apply (institutions_rule offline "MOFAA1 Cavity tests
A. Smith, Argonne University
Argonne National Laboratory
argonne national laboratory
DESY" "MOFAA1" ()
            ["Cavity tests"; "A. Smith, Argonne University";
             "Argonne National Laboratory"; "argonne national laboratory";
             "DESY"]).
    vm_compute. reflexivity.
  - vm_compute. reflexivity.
Defined.

(** X7. The abstract of a located paper is the concatenation, with single
    spaces between them and in the order of the text, of the lines of its
    section that are not equal to the title or the page number, fail the
    author and the institution test, are longer than 20 characters and do
    not start with [Funding:], [DOI:], [Received:] or [Accepted:]. *)
Theorem abstract_rule {World}
    (head : string → World → outcome response * World)
    (page_text pid : string) (w : World) (lines : list string) :
  section_lines page_text pid = Some lines →
  let info := (extract_paper_details_from_page head page_text pid w).1 in
  abstract info =
    Str.join " "
      (filter (λ l, l ≠ title info ∧ l ≠ page_number info
                    ∧ is_author_line l = false
                    ∧ is_institution_line l = false
                    ∧ is_abstract_line l = true) lines)
  ∧ ∀ line,
      is_abstract_line line = true ↔
      20 < String.length line
      ∧ ∀ p, p ∈ ["Funding:"; "DOI:"; "Received:"; "Accepted:"] →
             ¬ occurs_at p line 0.
Proof.
  intros Hlines info.
  destruct (extractor_text_fields head page_text pid w lines Hlines)
    as (Ht & Hp & _ & _ & Hb).
  destruct (fill_text_fields_text pid lines) as (_ & _ & _ & _ & Hb').
  split; [|apply is_abstract_line_iff].
  subst info. cbn zeta in *. by rewrite Hb, Hb', Ht, Hp.
Qed.

Lemma abstract_rule_witness :
  section_lines "MOFAA1 Cavity tests
We report on the first cold test.
Funding: supported by the agency.
Too short
Results agree with simulation." "MOFAA1"
    = Some ["Cavity tests"; "We report on the first cold test.";
            "Funding: supported by the agency."; "Too short";
            "Results agree with simulation."]
  ∧ abstract (extract_paper_details_from_page offline "MOFAA1 Cavity tests
We report on the first cold test.
Funding: supported by the agency.
Too short
Results agree with simulation." "MOFAA1" ()).1
    = "We report on the first cold test. Results agree with simulation.".
Proof.
  split; [vm_compute; reflexivity|].
  etrans.
  - apply (abstract_rule offline "MOFAA1 Cavity tests
We report on the first cold test.
Funding: supported by the agency.
Too short
Results agree with simulation." "MOFAA1" ()
            ["Cavity tests"; "We report on the first cold test.";
             "Funding: supported by the agency."; "Too short";
             "Results agree with simulation."]).
    vm_compute. reflexivity.
  - vm_compute. reflexivity.
Defined.

(** ** What the lines of a section are made of *)

Lemma rev_app_app s t u :
  String.rev_app s t +:+ u = String.rev_app s (t +:+ u).
Proof.
  revert t. induction s as [|c s IH]; intros t; simpl; [done|].
  by rewrite IH, str_app_cons.
Qed.

Lemma split_go_substring sep cur s piece :
  piece ∈ Str.split_go sep cur s →
  ∃ pre post, String.rev cur +:+ s = pre +:+ piece +:+ post.
Proof.
  revert cur. induction s as [|c s IH]; intros cur; simpl.
  - intros ->%list_elem_of_singleton. exists "", "".
    by rewrite !str_app_nil_r.
  - destruct (Ascii.eqb c sep).
    + intros [->|Hin]%elem_of_cons.
      * by exists "", (String c s).
      * destruct (IH "" Hin) as (pre & post & Heq).
        change (String.rev "" +:+ s) with s in Heq.
        exists (String.rev cur +:+ String c pre), post.
        by rewrite Heq, !str_app_assoc, str_app_cons.
    + intros (pre & post & Heq)%IH. exists pre, post. rewrite <- Heq.
      unfold String.rev. simpl. by rewrite !rev_app_app.
Qed.

Lemma lstrip_suffix s : ∃ pre, s = pre +:+ Str.lstrip s.
Proof.
  induction s as [|c s [pre IH]]; simpl; [by exists ""|].
  destruct (is_space c).
  - exists (String c pre). by rewrite str_app_cons, <- IH.
  - by exists "".
Qed.

Lemma rstrip_prefix s : ∃ post, s = Str.rstrip s +:+ post.
Proof.
  induction s as [|c s [post IH]]; simpl; [by exists ""|].
  destruct (Str.rstrip s) as [|c' r] eqn:Hr.
  - destruct (is_space c).
    + by exists (String c s).
    + exists s. done.
  - exists post. by rewrite str_app_cons, <- IH.
Qed.

Lemma strip_substring s : ∃ pre post, s = pre +:+ Str.strip s +:+ post.
Proof.
  unfold Str.strip. destruct (lstrip_suffix s) as [pre Hpre].
  destruct (rstrip_prefix (Str.lstrip s)) as [post Hpost].
  exists pre, post. by rewrite <- Hpost.
Qed.

Lemma content_lines_substring paper_content line :
  line ∈ content_lines paper_content →
  ∃ pre post, paper_content = pre +:+ line +:+ post.
Proof.
  unfold content_lines.
  intros (piece & -> & [_ Hin]%list_elem_of_filter)%list_elem_of_fmap.
  destruct (split_go_substring _ "" _ _ Hin) as (pre & post & Heq).
  change (String.rev "" +:+ paper_content) with paper_content in Heq.
  destruct (strip_substring piece) as (pre' & post' & Hpiece).
  exists (pre +:+ pre'), (post' +:+ post).
  rewrite Heq. rewrite Hpiece at 1. by rewrite !str_app_assoc.
Qed.

Lemma id_shape_at_inside pre s post k :
  id_shape_at s k → id_shape_at (pre +:+ s +:+ post) (String.length pre + k).
Proof.
  intros (p & letters & d & q & -> & <- & Hrest).
  exists (pre +:+ p), letters, d, (q +:+ post). split.
  - by rewrite !str_app_assoc, !str_app_cons.
  - split; [by rewrite str_app_length|done].
Qed.

Lemma id_shape_at_length s k :
  id_shape_at s k → k + 6 ≤ String.length s.
Proof.
  intros (p & letters & d & q & -> & <- & Hlen & _).
  rewrite !str_app_length. simpl. lia.
Qed.

Lemma paper_content_of_no_shape rem k : ¬ id_shape_at (paper_content_of rem) k.
Proof.
  intros Hshape.
  destruct (paper_content_of_spec rem) as (e & He & Heq).
  rewrite Heq in Hshape.
  pose proof (id_shape_at_length _ _ Hshape) as Hlen.
  pose proof (keep_length_le e rem) as Hle.
  assert (id_shape_at rem k) as Hrem.
  { rewrite <- (keep_skip e rem) at 1.
    exact (id_shape_at_inside "" _ (Str.skip e rem) k Hshape). }
  destruct He as [[_ Hfirst]|Hno _|Hno _ _].
  - apply (Hfirst k); [lia|done].
  - by apply (Hno k).
  - by apply (Hno k).
Qed.

(** X8. No line of a paper's section, and so neither its title nor any
    other field taken from the lines, contains the identifier shape of
    five upper-case letters followed by a digit: the section never reaches
    into the next paper's identifier. *)
Theorem section_lines_hold_no_identifier
    (page_text pid : string) (lines : list string) :
  section_lines page_text pid = Some lines →
  Forall (λ line, ∀ k, ¬ id_shape_at line k) lines.
Proof.
  intros (start & _ & ->)%section_lines_Some.
  apply Forall_forall. intros line Hline k Hshape.
  apply content_lines_substring in Hline as (pre & post & Heq).
  apply (id_shape_at_inside pre _ post) in Hshape.
  rewrite <- Heq in Hshape. by apply paper_content_of_no_shape in Hshape.
Qed.

Lemma section_lines_hold_no_identifier_witness :
  section_lines "MOFAA1 First title
A. Smith MOFAA2 Second title" "MOFAA1" = Some ["First title"; "A. Smith"]
  ∧ Forall (λ line, ∀ k, ¬ id_shape_at line k) ["First title"; "A. Smith"].
Proof.
  split; [vm_compute; reflexivity|].
  apply (section_lines_hold_no_identifier "MOFAA1 First title
A. Smith MOFAA2 Second title" "MOFAA1").
  vm_compute. reflexivity.
Defined.

Lemma lstrip_head c r : Str.lstrip c = r → ∀ x rest, r = String x rest → is_space x = false.
Proof.
  intros <-. induction c as [|y s IH]; simpl; [done|].
  destruct (is_space y) eqn:Hy; [done|]. by intros x rest [= <- _].
Qed.

Lemma rstrip_head x rest :
  is_space x = false → ∃ rest', Str.rstrip (String x rest) = String x rest'.
Proof.
  intros Hx. simpl. destruct (Str.rstrip rest); [rewrite Hx|]; eauto.
Qed.

Lemma rstrip_last s init c :
  Str.rstrip s = init +:+ String c "" → is_space c = false.
Proof.
  revert init. induction s as [|x s IH]; intros init; simpl.
  - by destruct init.
  - destruct (Str.rstrip s) as [|y r] eqn:Hr.
    + destruct (is_space x) eqn:Hx; [by destruct init|].
      destruct init as [|i init]; [by intros [= <-]|].
      rewrite str_app_cons. intros [= _ Hnil]. by destruct init.
    + destruct init as [|i init]; [done|].
      rewrite str_app_cons. intros [= _ Heq]. by apply (IH init).
Qed.

Lemma strip_clean s :
  (∀ x rest, Str.strip s = String x rest → is_space x = false)
  ∧ (∀ init c, Str.strip s = init +:+ String c "" → is_space c = false).
Proof.
  unfold Str.strip. split; [|intros init c; apply rstrip_last].
  intros x rest Heq.
  destruct (Str.lstrip s) as [|y r] eqn:Hl; [done|].
  pose proof (lstrip_head s _ Hl y r eq_refl) as Hy.
  destruct (rstrip_head y r Hy) as [rest' Hrest].
  rewrite Hrest in Heq. by injection Heq as <- _.
Qed.

(** X9. Every line of a paper's section is non-empty, contains no newline
    and neither starts nor ends with white space; so the title of a
    located paper is empty only when its section has no line at all. *)
Theorem section_lines_are_stripped {World}
    (head : string → World → outcome response * World)
    (page_text pid : string) (w : World) (lines : list string) :
  section_lines page_text pid = Some lines →
  Forall (λ line,
            line ≠ "" ∧ free_of "010" line
            ∧ (∀ x rest, line = String x rest → is_space x = false)
            ∧ (∀ init c, line = init +:+ String c "" → is_space c = false))
         lines
  ∧ (title (extract_paper_details_from_page head page_text pid w).1 = ""
     ↔ lines = []).
Proof.
  intros Hlines.
  assert (Forall (λ line,
            line ≠ "" ∧ free_of "010" line
            ∧ (∀ x rest, line = String x rest → is_space x = false)
            ∧ (∀ init c, line = init +:+ String c "" → is_space c = false))
            lines) as Hall.
  { apply Forall_forall. intros line Hline.
    split; [|split; [by eapply section_lines_free|]].
    - apply section_lines_Some in Hlines as (start & _ & ->).
      unfold content_lines in Hline.
      apply list_elem_of_fmap in Hline
        as (piece & -> & [Ht _]%list_elem_of_filter).
      by apply truthy_iff.
    - apply section_lines_Some in Hlines as (start & _ & ->).
      unfold content_lines in Hline.
      apply list_elem_of_fmap in Hline as (piece & -> & _).
      apply strip_clean. }
  split; [done|].
  destruct (extractor_text_fields head page_text pid w lines Hlines)
    as (-> & _).
  destruct (fill_text_fields_text pid lines) as (-> & _).
  destruct lines as [|line rest]; [done|].
  apply Forall_cons in Hall as [(Hne & _) _]. split; [done|done].
Qed.

Lemma section_lines_are_stripped_witness :
  section_lines "MOFAA1   
    Cavity tests   
  " "MOFAA1" = Some ["Cavity tests"]
  ∧ title (extract_paper_details_from_page offline "MOFAA1   
    Cavity tests   
  " "MOFAA1" ()).1 ≠ "".
Proof.
  split; [vm_compute; reflexivity|].
  intros Htitle.
  apply (section_lines_are_stripped offline "MOFAA1   
    Cavity tests   
  " "MOFAA1" () ["Cavity tests"]) in Htitle; [done|].
  vm_compute. reflexivity.
Defined.

(** X10. No author entry of a located paper is empty, contains a comma or
    starts or ends with white space, and each is a piece of a line of the
    section. *)
Theorem authors_are_clean_tokens {World}
    (head : string → World → outcome response * World)
    (page_text pid : string) (w : World) (lines : list string) :
  section_lines page_text pid = Some lines →
  Forall (λ author,
            author ≠ "" ∧ free_of "," author
            ∧ (∀ x rest, author = String x rest → is_space x = false)
            ∧ (∀ init c, author = init +:+ String c "" → is_space c = false)
            ∧ ∃ line pre post, line ∈ lines ∧ line = pre +:+ author +:+ post)
         (authors (extract_paper_details_from_page head page_text pid w).1).
Proof.
  intros Hlines.
  destruct (extractor_text_fields head page_text pid w lines Hlines)
    as (_ & _ & -> & _).
  destruct (fill_text_fields_text pid lines) as (_ & _ & -> & _).
  apply Forall_forall. intros author Hin.
  apply list_elem_of_bind in Hin as (line & Hin & [_ Hline]%list_elem_of_filter).
  unfold split_authors in Hin.
  apply list_elem_of_fmap in Hin as (piece & -> & [Ht Hpiece]%list_elem_of_filter).
  split; [by apply truthy_iff|].
  split; [by apply strip_free, (split_go_free _ "" line)|].
  split; [apply strip_clean|]. split; [apply strip_clean|].
  exists line.
  destruct (split_go_substring _ "" _ _ Hpiece) as (pre & post & Heq).
  change (String.rev "" +:+ line) with line in Heq.
  destruct (strip_substring piece) as (pre' & post' & Hp).
  exists (pre +:+ pre'), (post' +:+ post). split; [done|].
  rewrite Heq. rewrite Hp at 1. by rewrite !str_app_assoc.
Qed.

Lemma authors_are_clean_tokens_witness :
  section_lines "MOFAA1 Cavity tests
 A. Smith ,, B. Jones , " "MOFAA1"
    = Some ["Cavity tests"; "A. Smith ,, B. Jones ,"]
  ∧ authors (extract_paper_details_from_page offline "MOFAA1 Cavity tests
 A. Smith ,, B. Jones , " "MOFAA1" ()).1 = ["A. Smith"; "B. Jones"]
  ∧ Forall (λ author, author ≠ "")
      (authors (extract_paper_details_from_page offline "MOFAA1 Cavity tests
 A. Smith ,, B. Jones , " "MOFAA1" ()).1).
Proof.
  split; [vm_compute; reflexivity|]. split; [vm_compute; reflexivity|].
  eapply Forall_impl.
  - apply (authors_are_clean_tokens offline "MOFAA1 Cavity tests
 A. Smith ,, B. Jones , " "MOFAA1" ()
             ["Cavity tests"; "A. Smith ,, B. Jones ,"]).
    vm_compute. reflexivity.
  - intros author H. apply H.
Defined.

(** ** An identifier that is the beginning of another one *)

Lemma digit_is_no_space c : is_digit c = true → is_space c = false.
Proof.
  unfold is_digit, is_space. intros [H1%N.leb_le H2%N.leb_le]%andb_true_iff.
  repeat (apply orb_false_iff; split);
    try (apply andb_false_iff; left; apply N.leb_gt; lia);
    try (apply andb_false_iff; right; apply N.leb_gt; lia);
    apply N.eqb_neq; lia.
Qed.

Lemma span_app_stop p d rest :
  Str.forallb p d = true →
  (∀ c r, rest = String c r → p c = false) →
  Str.span p (d +:+ rest) = d.
Proof.
  intros Hd Hrest. induction d as [|x d IH].
  - change ("" +:+ rest) with rest. destruct rest as [|c r]; [done|].
    simpl. by rewrite (Hrest c r).
  - simpl in Hd. apply andb_true_iff in Hd as [Hx Hd].
    rewrite str_app_cons. simpl. by rewrite Hx, IH.
Qed.

Lemma first_occurrence_located pid page_text a :
  first_at (occurs_at pid page_text) a →
  ∃ n, match_paper_id pid (Str.skip a page_text) = Some n
       ∧ Str.search (match_paper_id pid) page_text = Some (a, a + n).
Proof.
  intros Hfirst.
  destruct (occurs_at_located pid page_text a (proj1 Hfirst)) as [[a' b] Hs].
  pose proof (search_paper_id_Some _ _ _ _ Hs) as Hfirst'.
  rewrite <- (first_at_unique _ _ _ Hfirst Hfirst') in Hs.
  destruct (search_Some _ _ _ _ Hs) as (_ & (n & Hn & ->) & _). eauto.
Qed.

(** X24. When the first place where an identifier occurs in the page text
    is the beginning of a longer identifier, the same text continued by
    digits and then by a character that is neither a digit nor white
    space, the extractor takes the digits as part of the match: the
    section it cuts out for the shorter identifier is the section of the
    longer one. *)
Theorem prefix_identifier_gets_section_of_longer
    (pre pid digits rest : string) :
  let page_text := pre +:+ pid +:+ digits +:+ rest in
  first_at (occurs_at pid page_text) (String.length pre) →
  digits ≠ "" → Str.forallb is_digit digits = true →
  (∀ c r, rest = String c r → is_digit c = false ∧ is_space c = false) →
  section_lines page_text pid = section_lines page_text (pid +:+ digits)
  ∧ is_Some (section_lines page_text pid).
Proof.
  intros page_text Hfirst Hne Hdigits Hrest.
  assert (Str.skip (String.length pre) page_text = pid +:+ digits +:+ rest)
    as Hskip by apply skip_app.
  assert (first_at (occurs_at (pid +:+ digits) page_text) (String.length pre))
    as Hfirst'.
  { split.
    - exists pre, rest. by rewrite str_app_assoc.
    - intros j Hj (p & q & Heq & Hp). apply (proj2 Hfirst j Hj).
      exists p, (digits +:+ q). by rewrite Heq, str_app_assoc. }
  destruct (first_occurrence_located _ _ _ Hfirst) as (n & Hn & Hs).
  destruct (first_occurrence_located _ _ _ Hfirst') as (n' & Hn' & Hs').
  assert (n = String.length pid + String.length digits) as ->.
  { rewrite Hskip in Hn. unfold match_paper_id in Hn.
    rewrite (proj2 (prefix_iff pid _)) in Hn by eauto.
    rewrite skip_app in Hn.
    assert (Str.span is_space (digits +:+ rest) = "") as Hsp.
    { destruct digits as [|d ds]; [done|]. simpl in Hdigits.
      apply andb_true_iff in Hdigits as [Hd _].
      rewrite str_app_cons. simpl. by rewrite (digit_is_no_space d Hd). }
    rewrite Hsp in Hn. cbn [String.length Str.skip] in Hn.
    rewrite span_app_stop in Hn; [|done|intros c r Hc; by apply (Hrest c r)].
    injection Hn as <-. lia. }
  assert (n' = String.length pid + String.length digits) as ->.
  { rewrite Hskip, <- str_app_assoc in Hn'. unfold match_paper_id in Hn'.
    rewrite (proj2 (prefix_iff (pid +:+ digits) _)) in Hn' by eauto.
    rewrite skip_app in Hn'.
    assert (Str.span is_space rest = "") as Hsp.
    { destruct rest as [|c r]; [done|]. simpl.
      by rewrite (proj2 (Hrest c r eq_refl)). }
    rewrite Hsp in Hn'. cbn [String.length Str.skip] in Hn'.
    assert (Str.span is_digit rest = "") as Hdg.
    { destruct rest as [|c r]; [done|]. simpl.
      by rewrite (proj1 (Hrest c r eq_refl)). }
    rewrite Hdg, str_app_length in Hn'. injection Hn' as <-. simpl. lia. }
  unfold section_lines. rewrite Hs, Hs'. eauto.
Qed.

Lemma prefix_identifier_gets_section_of_longer_witness :
  section_lines "MOFAA10: Ten cells
MOFAA1: One cell" "MOFAA1" = Some [": Ten cells"]
  ∧ section_lines "MOFAA10: Ten cells
MOFAA1: One cell" "MOFAA1"
    = section_lines "MOFAA10: Ten cells
MOFAA1: One cell" "MOFAA10".
Proof.
  split; [vm_compute; reflexivity|].
  apply (prefix_identifier_gets_section_of_longer "" "MOFAA1" "0" ": Ten cells
MOFAA1: One cell").
  - apply (search_paper_id_Some _ _ 0 7). vm_compute. reflexivity.
  - done.
  - reflexivity.
  - intros c r [= <- _]. split; reflexivity.
Defined.

(** ** File names *)

Lemma forallb_app p s t :
  Str.forallb p (s +:+ t) = Str.forallb p s && Str.forallb p t.
Proof.
  induction s as [|c s IH]; [done|].
  rewrite str_app_cons. simpl. by rewrite IH, andb_assoc.
Qed.

Lemma forallb_keep p n s :
  Str.forallb p s = true → Str.forallb p (Str.keep n s) = true.
Proof.
  intros H. rewrite <- (keep_skip n s), forallb_app in H.
  by apply andb_true_iff in H as [? _].
Qed.

Lemma forallb_skip p n s :
  Str.forallb p s = true → Str.forallb p (Str.skip n s) = true.
Proof.
  intros H. rewrite <- (keep_skip n s), forallb_app in H.
  by apply andb_true_iff in H as [_ ?].
Qed.

Lemma lstrip_chars_forallb chars p s :
  Str.forallb p s = true → Str.forallb p (lstrip_chars chars s) = true.
Proof.
  induction s as [|c s IH]; simpl; [done|].
  destruct (chars c); [|done].
  intros [_ H]%andb_true_iff. by apply IH.
Qed.

Lemma rstrip_chars_forallb chars p s :
  Str.forallb p s = true → Str.forallb p (rstrip_chars chars s) = true.
Proof.
  induction s as [|c s IH]; simpl; [done|].
  intros [Hc H]%andb_true_iff. specialize (IH H).
  destruct (rstrip_chars chars s) as [|c' r].
  - destruct (chars c); simpl; [done|]. by rewrite Hc.
  - simpl in *. by rewrite Hc, IH.
Qed.

Lemma before_last_forallb p sep s r :
  before_last sep s = Some r → Str.forallb p s = true →
  Str.forallb p r = true.
Proof.
  revert r. induction s as [|c s IH]; intros r; simpl; [done|].
  destruct (before_last sep s) as [r'|].
  - intros [= <-] [Hc H]%andb_true_iff. simpl. rewrite Hc. by apply IH.
  - destruct (Ascii.eqb c sep); [|done]. by intros [= <-].
Qed.

Lemma before_last_length sep s r :
  before_last sep s = Some r → String.length r < String.length s.
Proof.
  revert r. induction s as [|c s IH]; intros r; simpl; [done|].
  destruct (before_last sep s) as [r'|].
  - intros [= <-]. simpl. specialize (IH r' eq_refl). lia.
  - destruct (Ascii.eqb c sep); [|done]. intros [= <-]. simpl. lia.
Qed.

Lemma rsplit_head_forallb p sep s :
  Str.forallb p s = true → Str.forallb p (rsplit_head sep s) = true.
Proof.
  unfold rsplit_head. destruct (before_last sep s) eqn:Hb; [|done].
  by apply (before_last_forallb p sep s).
Qed.

Lemma rsplit_head_length sep s :
  String.length (rsplit_head sep s) ≤ String.length s.
Proof.
  unfold rsplit_head. destruct (before_last sep s) eqn:Hb; simpl; [|done].
  apply before_last_length in Hb. lia.
Qed.

Lemma slice_to_forallb p n s :
  Str.forallb p s = true → Str.forallb p (slice_to n s) = true.
Proof. unfold slice_to. destruct (n <? 0)%Z; apply forallb_keep. Qed.

Lemma slice_to_length n s :
  (0 ≤ n)%Z → (Z.of_nat (String.length (slice_to n s)) ≤ n)%Z.
Proof.
  intros Hn. unfold slice_to.
  destruct (Z.ltb_spec n 0); [lia|].
  pose proof (keep_length_le (Z.to_nat n) s). lia.
Qed.

(** A character that may stand in a file name: not one of the invalid
    characters, and no white space other than the space *)
Lemma collapse_spaces_go_ok in_run s :
  Str.forallb (λ c, negb (is_invalid_filename_char c)) s = true →
  Str.forallb (λ c, negb (is_invalid_filename_char c)
                    && (negb (is_space c) || Ascii.eqb c " "))
              (collapse_spaces_go in_run s) = true.
Proof.
  revert in_run. induction s as [|c s IH]; intros in_run; simpl; [done|].
  intros [Hc H]%andb_true_iff.
  destruct (is_space c) eqn:Hs.
  - destruct in_run; simpl; auto.
  - simpl. rewrite Hc, Hs. simpl. auto.
Qed.

Lemma map_replaces_invalid s :
  Str.forallb (λ c, negb (is_invalid_filename_char c))
    (Str.map (λ c, if is_invalid_filename_char c then "_"%char else c) s)
  = true.
Proof.
  induction s as [|c s IH]; simpl; [done|].
  rewrite IH. destruct (is_invalid_filename_char c) eqn:Hc; [done|].
  by rewrite Hc.
Qed.

Lemma clean_filename_ok filename :
  Str.forallb (λ c, negb (is_invalid_filename_char c)
                    && (negb (is_space c) || Ascii.eqb c " "))
              (clean_filename filename) = true.
Proof.
  unfold clean_filename, strip_chars.
  apply rstrip_chars_forallb, lstrip_chars_forallb, collapse_spaces_go_ok,
    map_replaces_invalid.
Qed.

Lemma split_once_found sep s a b :
  Str.search (Str.match_literal sep) s = Some (a, b) →
  a ≤ String.length s ∧ b = a + String.length sep
  ∧ first_at (occurs_at sep s) a.
Proof.
  intros (Ha & (n & Hn & ->) & Hbefore)%search_Some.
  unfold Str.match_literal in *.
  destruct (String.prefix sep (Str.skip a s)) eqn:Hp; [|done].
  injection Hn as <-. split; [done|]. split; [done|]. split.
  - by apply occurs_at_iff.
  - intros j Hj [_ Hq]%occurs_at_iff.
    specialize (Hbefore j Hj). by rewrite Hq in Hbefore.
Qed.

Lemma truncate_filename_ok p filename max_length :
  Str.forallb p " - " = true →
  Str.forallb p filename = true →
  Str.forallb p (truncate_filename filename max_length) = true.
Proof.
  intros Hsep H. unfold truncate_filename, split_once.
  destruct (Str.search _ filename) as [[a b]|].
  - destruct (5 <? _)%Z; [|by apply forallb_keep].
    rewrite !forallb_app, Hsep, forallb_keep by done. simpl.
    destruct (Str.contains _ _).
    + by apply rsplit_head_forallb, slice_to_forallb, forallb_skip.
    + by apply slice_to_forallb, forallb_skip.
  - by apply rsplit_head_forallb, slice_to_forallb.
Qed.

Lemma safe_filename_ok (filename : string) (max_length : Z) :
  safe_filename filename max_length ≠ ""
  ∧ Str.forallb (λ c, negb (is_invalid_filename_char c)
                      && (negb (is_space c) || Ascii.eqb c " "))
                (safe_filename filename max_length) = true.
Proof.
  unfold safe_filename.
  destruct (Str.truthy filename); simpl; [|done].
  set (cleaned := clean_filename filename).
  set (cut := if (max_length <? _)%Z then _ else _).
  assert (Str.forallb (λ c, negb (is_invalid_filename_char c)
                            && (negb (is_space c) || Ascii.eqb c " "))
                      cut = true) as Hcut.
  { subst cut. destruct (max_length <? _)%Z.
    - apply truncate_filename_ok; [done|apply clean_filename_ok].
    - apply clean_filename_ok. }
  destruct cut as [|c r]; simpl; [done|]. simpl in Hcut. done.
Qed.

(** X11. Whatever the name and the length limit, the safe file name is
    not empty, contains none of the characters [<], [>], [:], the double
    quote, [/], the backslash, [|], [?], the star, carriage return and
    newline, and its only white space is the space character. *)
Theorem safe_filename_is_safe (filename : string) (max_length : Z) :
  safe_filename filename max_length ≠ ""
  ∧ Str.forallb (λ c, negb (is_invalid_filename_char c)
                      && (negb (is_space c) || Ascii.eqb c " "))
                (safe_filename filename max_length) = true.
Proof. apply safe_filename_ok. Qed.

Lemma occurs_at_search sep s k :
  occurs_at sep s k → is_Some (Str.search (Str.match_literal sep) s).
Proof.
  intros [Hk Hp]%occurs_at_iff.
  destruct (Str.search (Str.match_literal sep) s) as [r|] eqn:Hs; [eauto|].
  apply search_None with (j := k) in Hs.
  unfold Str.match_literal in Hs. by rewrite Hp in Hs.
Qed.

Lemma first_occurrence_search sep s k :
  first_at (occurs_at sep s) k →
  Str.search (Str.match_literal sep) s = Some (k, k + String.length sep).
Proof.
  intros Hfirst.
  destruct (occurs_at_search sep s k (proj1 Hfirst)) as [[a b] Hs].
  destruct (split_once_found _ _ _ _ Hs) as (_ & -> & Ha).
  by rewrite (first_at_unique _ _ _ Hfirst Ha).
Qed.

Lemma strip_chars_head chars s x rest :
  strip_chars chars s = String x rest → chars x = false.
Proof.
  unfold strip_chars.
  assert (∀ t y r, lstrip_chars chars t = String y r → chars y = false) as Hl.
  { induction t as [|c t IH]; simpl; [done|].
    destruct (chars c) eqn:Hc; [apply IH|]. by intros y r [= <- _]. }
  destruct (lstrip_chars chars s) as [|y r] eqn:Heq; [done|].
  pose proof (Hl s y r Heq) as Hy. simpl.
  destruct (rstrip_chars chars r); [rewrite Hy|]; by intros [= <- _].
Qed.

(** X12. With a limit of at least 7 the safe file name is no longer than
    the limit, provided that the cleaned name either has no [ - ]
    separator or has fewer than [limit - 8] characters before the first
    one. *)
Theorem safe_filename_within_limit (filename : string) (max_length : Z) :
  (7 ≤ max_length)%Z →
  (∀ k, first_at (occurs_at " - " (clean_filename filename)) k →
        (Z.of_nat k + 8 < max_length)%Z) →
  (Z.of_nat (String.length (safe_filename filename max_length))
   ≤ max_length)%Z.
Proof.
  intros Hmax Hsep. unfold safe_filename.
  destruct (Str.truthy filename); simpl; [|lia].
  set (cleaned := clean_filename filename) in *.
  assert (∀ s, (Z.of_nat (String.length s) ≤ max_length)%Z →
               (Z.of_nat (String.length
                            (if Str.truthy s then s else "unknown"))
                ≤ max_length)%Z) as Hor.
  { intros [|c s] Hs; simpl in *; lia. }
  apply Hor. destruct (Z.ltb_spec max_length (Z.of_nat (String.length cleaned)));
    [|done].
  unfold truncate_filename, split_once.
  destruct (Str.search _ cleaned) as [[a b]|] eqn:Hs.
  - destruct (split_once_found _ _ _ _ Hs) as (Ha & -> & Hfirst).
    specialize (Hsep a Hfirst).
    rewrite (keep_length a cleaned Ha).
    destruct (Z.ltb_spec 5 (max_length - Z.of_nat a - 3)); [|lia].
    rewrite !str_app_length. simpl.
    set (t := slice_to _ _).
    pose proof (slice_to_length (max_length - Z.of_nat a - 3)
                  (Str.skip (a + 3) cleaned)) as Ht. fold t in Ht.
    pose proof (rsplit_head_length " " t).
    pose proof (keep_length a cleaned Ha).
    destruct (Str.contains " " t); lia.
  - pose proof (slice_to_length max_length cleaned).
    pose proof (rsplit_head_length " " (slice_to max_length cleaned)). lia.
Qed.

Lemma safe_filename_within_limit_witness :
  (Z.of_nat (String.length
     (safe_filename
        "MOFAA1_talk - Advances in superconducting radio frequency cavities for future colliders"
        60)) ≤ 60)%Z
  ∧ safe_filename
      "MOFAA1_talk - Advances in superconducting radio frequency cavities for future colliders"
      60
    = "MOFAA1_talk - Advances in superconducting radio frequency".
Proof.
  split; [|vm_compute; reflexivity].
  apply (safe_filename_within_limit
           "MOFAA1_talk - Advances in superconducting radio frequency cavities for future colliders"
           60); [lia|].
  intros k Hk. apply first_occurrence_search in Hk.
  vm_compute in Hk. injection Hk as <-. lia.
Defined.

(** X13. The limit is not kept in every case: when the cleaned name is
    longer than the limit and its first [ - ] separator comes after
    [limit - 8] or more characters, the safe file name is the whole text
    before that separator, however long it is. *)
Theorem safe_filename_keeps_long_prefix
    (filename : string) (max_length : Z) (k : nat) :
  filename ≠ "" →
  first_at (occurs_at " - " (clean_filename filename)) k →
  (max_length < Z.of_nat (String.length (clean_filename filename)))%Z →
  (max_length ≤ Z.of_nat k + 8)%Z →
  safe_filename filename max_length = Str.keep k (clean_filename filename)
  ∧ String.length (safe_filename filename max_length) = k.
Proof.
  intros Hne Hfirst Hlong Hk.
  assert (safe_filename filename max_length
          = Str.keep k (clean_filename filename)) as ->.
  { unfold safe_filename.
    destruct filename as [|c0 f0]; [done|]. cbn [Str.truthy negb].
    set (cleaned := clean_filename (String c0 f0)) in *.
    rewrite (proj2 (Z.ltb_lt _ _) Hlong).
    unfold truncate_filename, split_once.
    rewrite (first_occurrence_search _ _ _ Hfirst).
    pose proof (proj1 (occurs_at_iff _ _ _) (proj1 Hfirst)) as [Hle _].
    rewrite (keep_length k cleaned Hle).
    destruct (Z.ltb_spec 5 (max_length - Z.of_nat k - 3)); [lia|].
    destruct (Str.keep k cleaned) as [|x r] eqn:Hkeep; [|done].
    exfalso. destruct k as [|k].
    - destruct Hfirst as [(pre & post & Heq & Hpre) _].
      destruct pre; [|done].
      change ("" +:+ " - " +:+ post) with (String " " ("- " +:+ post)) in Heq.
      unfold cleaned, clean_filename in Heq.
      by apply strip_chars_head in Heq.
    - apply (f_equal String.length) in Hkeep.
      rewrite keep_length in Hkeep by done. done. }
  split; [done|]. apply keep_length.
  by destruct (proj1 (occurs_at_iff " - " _ k) (proj1 Hfirst)).
Qed.

Lemma safe_filename_keeps_long_prefix_witness :
  safe_filename
    "this part before the separator is longer than the maximum of sixty characters - title"
    60
  = "this part before the separator is longer than the maximum of sixty characters"
  ∧ String.length
      (safe_filename
         "this part before the separator is longer than the maximum of sixty characters - title"
         60) = 77.
Proof.
  destruct (safe_filename_keeps_long_prefix
              "this part before the separator is longer than the maximum of sixty characters - title"
              60 77) as [H1 H2]; [done| |vm_compute; reflexivity|lia|].
  - apply (split_once_found " - " _ 77 80). vm_compute. reflexivity.
  - split; [rewrite H1; vm_compute; reflexivity|exact H2].
Defined.

Lemma endswith_app s suffix : endswith (s +:+ suffix) suffix = true.
Proof.
  unfold endswith. rewrite str_app_length.
  replace (String.length s + String.length suffix - String.length suffix)
    with (String.length s) by lia.
  rewrite skip_app, String.eqb_refl, andb_true_r.
  apply Nat.leb_le. lia.
Qed.

(** X23. Every file is written below the output directory, in the folder
    of its kind and the directory named by the safe name of the session;
    its own name ends in [.pdf], is not empty and has none of the invalid
    characters.  Files of different kinds never share a path. *)
Theorem download_paths_are_safe
    (output_dir session_name : string) (info : paper_info) (t : file_type) :
  let ok := λ s, Str.forallb (λ c, negb (is_invalid_filename_char c)) s in
  (∃ dir name,
      download_path output_dir t session_name info
      = [output_dir; file_folder t; dir; name]
      ∧ dir ≠ "" ∧ ok dir = true
      ∧ name ≠ "" ∧ ok name = true ∧ endswith name ".pdf" = true)
  ∧ ∀ t' info', t' ≠ t →
      download_path output_dir t' session_name info'
      ≠ download_path output_dir t session_name info.
Proof.
  cbn zeta.
  assert (∀ s, Str.forallb (λ c, negb (is_invalid_filename_char c)
                                 && (negb (is_space c) || Ascii.eqb c " "))
                           s = true →
               Str.forallb (λ c, negb (is_invalid_filename_char c)) s = true)
    as Hweak.
  { induction s as [|c s IH]; simpl; [done|].
    intros [[-> _]%andb_true_iff H]%andb_true_iff. by apply IH. }
  split.
  - exists (safe_filename session_name 60), (download_name t info).
    split; [done|].
    destruct (safe_filename_ok session_name 60) as [Hd1 Hd2%Hweak].
    split; [done|]. split; [done|].
    unfold download_name.
    set (filename := paper_id info +:+ file_suffix t +:+ " - " +:+ title info).
    destruct (safe_filename_ok filename 60) as [Hn1 Hn2%Hweak].
    destruct (endswith (safe_filename filename 60) ".pdf") eqn:He; simpl.
    + done.
    + split; [by destruct (safe_filename filename 60)|].
      split; [by rewrite forallb_app, Hn2|apply endswith_app].
  - intros t' info' Hne Heq. apply Hne.
    apply (f_equal (λ l, l !! 1)) in Heq.
    unfold download_path, download_dir in Heq. simpl in Heq.
    injection Heq as Hfolder. by destruct t, t'.
Qed.

(** ** Fetching a page *)

Section Fetching.

Context {World Soup : Type}.
Variable get : string → World → fetched * World.
Variable BeautifulSoup : string → Soup.

Lemma get_page_content_loop_failed url retries attempt rest
    (st : run_state World) :
  is_request_failure (get url (network st)).1 = true →
  get_page_content_loop get BeautifulSoup url retries (attempt :: rest) st
  = get_page_content_loop get BeautifulSoup url retries rest
      (let st' := with_network st (get url (network st)).2 in
       if (attempt <? retries - 1)%Z then sleep (2 ^ attempt) st'
       else count_error st').
Proof.
  simpl. destruct (get url (network st)) as [answer w]. simpl.
  destruct answer as [status text| |]; simpl; try done.
  - intros ->. by destruct (attempt <? retries - 1)%Z.
  - intros _. by destruct (attempt <? retries - 1)%Z.
Qed.

Lemma get_page_content_loop_page url retries attempt rest
    (st : run_state World) status text :
  (get url (network st)).1 = Page status text →
  is_error_status status = false →
  get_page_content_loop get BeautifulSoup url retries (attempt :: rest) st
  = (Returned (Some (BeautifulSoup text)),
     with_network st (get url (network st)).2).
Proof.
  simpl. destruct (get url (network st)) as [answer w]. simpl.
  by intros -> ->.
Qed.

Lemma get_page_content_loop_after_failures url retries (m : nat) :
  ∀ (i : Z) (n : nat) (st : run_state World),
    (i + Z.of_nat n = retries)%Z → m < n →
    (∀ j, j < m →
          is_request_failure (get url (after_requests get url j (network st))).1 = true) →
    get_page_content_loop get BeautifulSoup url retries
      (seqZ i (Z.of_nat n)) st
    = get_page_content_loop get BeautifulSoup url retries
        (seqZ (i + Z.of_nat m) (Z.of_nat (n - m)))
        {| network := after_requests get url m (network st);
           run_stats := run_stats st;
           slept := slept st ++ (Z.pow 2 <$> seqZ i (Z.of_nat m)) |}.
Proof.
  induction m as [|m IH]; intros i n st Hn Hm Hfail.
  - destruct st as [w s sl]. simpl.
    rewrite app_nil_r, Z.add_0_r, Nat.sub_0_r. done.
  - rewrite (IH i n st Hn) by (try lia; intros j Hj; apply Hfail; lia).
    rewrite (seqZ_cons (i + Z.of_nat m)) by lia.
    rewrite get_page_content_loop_failed by (apply Hfail; lia).
    cbn [network].
    rewrite (proj2 (Z.ltb_lt (i + Z.of_nat m) (retries - 1))) by lia.
    unfold sleep, with_network. cbn [network run_stats slept].
    rewrite seqZ_S, fmap_app, <- app_assoc. simpl.
    f_equal. f_equal; lia.
Qed.

(** X14. When every request for the page fails with a request exception
    (raised by the request itself or for a 4xx or 5xx status), a call
    with [retries >= 1] makes exactly [retries] requests, waits
    [1, 2, 4, ...] seconds between them, [2^(retries-1) - 1] in total and
    not after the last one, counts one error and returns [None]. *)
Theorem get_page_content_gives_up
    (url : string) (retries : Z) (st : run_state World) :
  (1 ≤ retries)%Z →
  (∀ w, is_request_failure (get url w).1 = true) →
  get_page_content get BeautifulSoup url retries st
  = (Returned None,
     {| network := after_requests get url (Z.to_nat retries) (network st);
        run_stats := run_stats (count_error st);
        slept := slept st ++ (Z.pow 2 <$> seqZ 0 (retries - 1)) |})
  ∧ sum (Z.pow 2 <$> seqZ 0 (retries - 1)) = (2 ^ (retries - 1) - 1)%Z.
Proof.
  intros Hretries Hfail. split.
  - unfold get_page_content.
    set (n := Z.to_nat retries). assert (n ≠ 0) by lia.
    replace retries with (Z.of_nat n) at 2 by lia.
    rewrite (get_page_content_loop_after_failures url retries (n - 1) 0 n st)
      by (try lia; intros; apply Hfail).
    replace (n - (n - 1)) with 1 by lia.
    rewrite (seqZ_cons _ 1) by lia.
    rewrite get_page_content_loop_failed by apply Hfail.
    cbn [network].
    rewrite (proj2 (Z.ltb_ge _ _)) by lia.
    rewrite seqZ_nil by lia. simpl. f_equal.
    unfold count_error, with_network. cbn [network run_stats slept].
    replace (retries - 1)%Z with (Z.of_nat (n - 1)) by lia.
    f_equal. destruct n as [|n']; [lia|].
    replace (S n' - 1) with n' by lia. done.
  - replace (retries - 1)%Z with (Z.of_nat (Z.to_nat (retries - 1))) by lia.
    generalize (Z.to_nat (retries - 1)). intros k. unfold sum.
    induction k as [|k IH]; [done|].
    rewrite seqZ_S, fmap_app, foldl_app, IH. simpl.
    rewrite Nat2Z.inj_succ, Z.pow_succ_r, Z.add_0_l by lia. lia.
Qed.

(** X15. When the first [k] requests fail with a request exception and
    request [k + 1], still within [retries], brings a page with a status
    outside 400-599, the call returns the parsed text of that page after
    exactly [k + 1] requests and waits of [1, 2, ..., 2^(k-1)] seconds,
    and counts no error. *)
Theorem get_page_content_returns_first_page
    (url : string) (retries : Z) (st : run_state World) (k : nat)
    (status : Z) (text : string) :
  (Z.of_nat k < retries)%Z →
  (∀ j, j < k →
        is_request_failure (get url (after_requests get url j (network st))).1 = true) →
  (get url (after_requests get url k (network st))).1 = Page status text →
  is_error_status status = false →
  get_page_content get BeautifulSoup url retries st
  = (Returned (Some (BeautifulSoup text)),
     {| network := after_requests get url (S k) (network st);
        run_stats := run_stats st;
        slept := slept st ++ (Z.pow 2 <$> seqZ 0 (Z.of_nat k)) |}).
Proof.
  intros Hk Hfail Hpage Hstatus. unfold get_page_content.
  set (n := Z.to_nat retries).
  replace retries with (Z.of_nat n) at 2 by lia.
  rewrite (get_page_content_loop_after_failures url retries k 0 n st)
    by (try lia; done).
  rewrite (seqZ_cons (0 + Z.of_nat k)) by lia.
  by rewrite (get_page_content_loop_page _ _ _ _ _ status text).
Qed.

End Fetching.

Lemma get_page_content_gives_up_witness :
  get_page_content unreachable_site id "https://example.org/mofaa.htm" 3
    fresh_run
  = (Returned None,
     {| network := 3;
        run_stats :=
          {| total_papers := 0; downloaded_presentations := 0;
             downloaded_papers := 0; downloaded_posters := 0;
             errors := 1; sessions_processed := 0 |};
        slept := [1; 2]%Z |}).
Proof.
  destruct (get_page_content_gives_up unreachable_site (@id string)
              "https://example.org/mofaa.htm" 3 fresh_run) as [H _];
    [lia|done|].
  rewrite H. vm_compute. reflexivity.
Defined.

Lemma get_page_content_returns_first_page_witness :
  get_page_content recovering_site id "https://example.org/mofaa.htm" 3
    fresh_run
  = (Returned (Some "MOFAA1 First title MOFAA2 Second title"),
     {| network := 3; run_stats := run_stats fresh_run;
        slept := [1; 2]%Z |}).
Proof.
  rewrite (get_page_content_returns_first_page recovering_site (@id string)
             "https://example.org/mofaa.htm" 3 fresh_run 2 200
             "MOFAA1 First title MOFAA2 Second title").
  - vm_compute. reflexivity.
  - lia.
  - intros [|[|j]] Hj; [reflexivity|reflexivity|lia].
  - reflexivity.
  - reflexivity.
Defined.

(** ** Scraping a session *)

Lemma get_page_content_loop_counters {World Soup}
    (get : string → World → fetched * World) (BeautifulSoup : string → Soup)
    url retries (n : nat) :
  ∀ (i : Z) (st : run_state World),
    (i + Z.of_nat n = retries)%Z →
    let result :=
      get_page_content_loop get BeautifulSoup url retries
        (seqZ i (Z.of_nat n)) st in
    let s := run_stats st in
    let s' := run_stats result.2 in
    total_papers s' = total_papers s
    ∧ downloaded_presentations s' = downloaded_presentations s
    ∧ downloaded_papers s' = downloaded_papers s
    ∧ downloaded_posters s' = downloaded_posters s
    ∧ sessions_processed s' = sessions_processed s
    ∧ match result.1 with
      | Returned None =>
          errors s' = (errors s + if decide (n = 0%nat) then 0 else 1)%Z
      | _ => errors s' = errors s
      end.
Proof.
  induction n as [|n IH]; intros i st Hn; cbn zeta.
  - simpl. repeat split; auto. lia.
  - rewrite seqZ_cons by lia.
    replace (Z.pred (Z.of_nat (S n))) with (Z.of_nat n) by lia.
    destruct (is_request_failure (get url (network st)).1) eqn:Hf.
    + rewrite (get_page_content_loop_failed _ _ _ _ _ _ _ Hf). cbn zeta.
      destruct (Z.ltb_spec i (retries - 1)).
      * specialize (IH (Z.succ i)
                      (sleep (2 ^ i) (with_network st (get url (network st)).2))
                      ltac:(lia)).
        cbn zeta in IH. cbn [sleep with_network run_stats] in IH.
        destruct IH as (-> & -> & -> & -> & -> & IH).
        repeat split; auto.
        destruct (get_page_content_loop _ _ _ _ _ _).1 as [[soup|]|]; auto.
        rewrite IH. destruct (decide (n = 0)); [lia|done].
      * assert (n = 0) as -> by lia. simpl. repeat split; auto.
    + simpl.
      destruct (get url (network st)) as [[status text| |] w];
        simpl in *; try done.
      rewrite Hf. simpl. repeat split; auto.
Qed.

(** X16. A call of [scrape_session] that returns adds the number of
    papers it returns to [total_papers] and leaves the download counters
    alone; it counts the session either as processed (the page was
    fetched) or as an error (every attempt failed, and the result is
    empty), never as both. *)
Theorem scrape_session_accounting {World Soup}
    (get : string → World → fetched * World)
    (BeautifulSoup : string → Soup) (get_text : Soup → string)
    (head : string → World → outcome response * World)
    (session : session_info) (st st' : run_state World)
    (papers : list paper_info) :
  scrape_session get BeautifulSoup get_text head session st
    = (Returned papers, st') →
  let s := run_stats st in
  let s' := run_stats st' in
  total_papers s' = (total_papers s + Z.of_nat (length papers))%Z
  ∧ downloaded_presentations s' = downloaded_presentations s
  ∧ downloaded_papers s' = downloaded_papers s
  ∧ downloaded_posters s' = downloaded_posters s
  ∧ ((errors s' = errors s
      ∧ sessions_processed s' = (sessions_processed s + 1)%Z)
     ∨ (errors s' = (errors s + 1)%Z
        ∧ sessions_processed s' = sessions_processed s
        ∧ papers = [])).
Proof.
  unfold scrape_session, get_page_content.
  pose proof (get_page_content_loop_counters get BeautifulSoup
                (session_url session) 3 3 0 st eq_refl) as H.
  cbn zeta in H. change (Z.of_nat 3) with 3%Z in H.
  destruct (get_page_content_loop _ _ _ _ _ st) as [[[soup|]|] st1];
    simpl in H; [| |done].
  - destruct (extract_papers_from_session _ _ _ _) as [ps w].
    intros [= <- <-]. simpl.
    destruct H as (-> & -> & -> & -> & -> & ->). repeat split; auto.
  - intros [= <- <-]. simpl.
    destruct H as (-> & -> & -> & -> & -> & ->).
    split; [lia|]. repeat split; auto.
Qed.

Lemma scrape_session_accounting_witness :
  let session := {| session_id := "MOFAA"; session_name := "MOFAA - Opening";
                    session_url := "https://example.org/mofaa.htm" |} in
  let result :=
    scrape_session recovering_site id id failing_prober session fresh_run in
  total_papers (run_stats result.2) = 2%Z
  ∧ sessions_processed (run_stats result.2) = 1%Z
  ∧ errors (run_stats result.2) = 0%Z.
Proof.
  intros session result.
  destruct (scrape_session_accounting recovering_site (@id string) id
              failing_prober session fresh_run result.2
              (extract_papers_from_session failing_prober
                 "MOFAA1 First title MOFAA2 Second title" "MOFAA" 3).1)
    as (H1 & _ & _ & _ & H2).
  - vm_compute. reflexivity.
  - split; [rewrite H1; vm_compute; reflexivity|].
    vm_compute. split; reflexivity.
Defined.

(** ** The list of sessions *)

Lemma content_lines_nonempty paper_content line :
  line ∈ content_lines paper_content → line ≠ "".
Proof.
  unfold content_lines.
  intros (piece & -> & [Ht _]%list_elem_of_filter)%list_elem_of_fmap.
  by apply truthy_iff.
Qed.

Lemma sessions_of_lines_spec make (n : nat) :
  ∀ lines, length lines ≤ n →
    Forall (λ s, ∃ pre id name post,
                   lines = pre ++ id :: name :: post
                   ∧ s = make id name
                   ∧ String.length id = 5 ∧ isupper id = true)
           (sessions_of_lines make lines)
    ∧ 2 * length (sessions_of_lines make lines) ≤ length lines.
Proof.
  induction n as [|n IH]; intros lines Hlen.
  { destruct lines; [|simpl in Hlen; lia]. simpl. split; [constructor|lia]. }
  destruct lines as [|line rest]; [simpl; split; [constructor|lia]|].
  simpl in Hlen. simpl.
  destruct (Nat.eqb (String.length line) 5 && isupper line) eqn:Hid.
  - destruct rest as [|name rest']; [simpl; split; [constructor|lia]|].
    simpl in Hlen. destruct (IH rest' ltac:(lia)) as [Hall Hcount].
    apply andb_true_iff in Hid as [Hfive%Nat.eqb_eq Hup].
    split; [|simpl; lia].
    constructor.
    + by exists [], line, name, rest'.
    + eapply Forall_impl; [exact Hall|].
      intros s (pre & id & nm & post & -> & Hs).
      by exists (line :: name :: pre), id, nm, post.
  - destruct (IH rest ltac:(lia)) as [Hall Hcount].
    split; [|simpl; lia].
    eapply Forall_impl; [exact Hall|].
    intros s (pre & id & nm & post & -> & Hs).
    by exists (line :: pre), id, nm, post.
Qed.

Lemma sessions_of_lines_spec_all make lines :
  Forall (λ s, ∃ pre id name post,
                 lines = pre ++ id :: name :: post
                 ∧ s = make id name
                 ∧ String.length id = 5 ∧ isupper id = true)
         (sessions_of_lines make lines)
  ∧ 2 * length (sessions_of_lines make lines) ≤ length lines.
Proof. by apply (sessions_of_lines_spec make (length lines)). Qed.


Lemma isupper_nonempty s : isupper s = true → s ≠ "".
Proof. by destruct s. Qed.

(** X18. Every session that [load_sessions] yields, from the table or
    from the text, has an upper-case, non-empty identifier, the URL
    [.../srf2019/html/<lower-cased identifier>.htm] and the name
    [<identifier> - <name>] with a non-empty name; when the request
    fails there is no session. *)
Theorem loaded_sessions_are_well_formed {Soup}
    (table_rows : Soup → option (list (list string)))
    (get_text : Soup → string) (page : outcome Soup) :
  Forall (λ s,
            session_id s ≠ "" ∧ isupper (session_id s) = true
            ∧ session_url s =
              "https://proceedings.jacow.org/srf2019/html/"
                +:+ Str.lower (session_id s) +:+ ".htm"
            ∧ ∃ name, name ≠ ""
                      ∧ session_name s = session_id s +:+ " - " +:+ name)
         (load_sessions table_rows get_text page)
  ∧ (page = Raised → load_sessions table_rows get_text page = []).
Proof.
  split; [|by intros ->].
  destruct page as [soup|]; [|constructor]. simpl.
  assert (∀ id name, isupper id = true → name ≠ "" →
            let s := session_of id name in
            session_id s ≠ "" ∧ isupper (session_id s) = true
            ∧ session_url s =
              "https://proceedings.jacow.org/srf2019/html/"
                +:+ Str.lower (session_id s) +:+ ".htm"
            ∧ ∃ name, name ≠ ""
                      ∧ session_name s = session_id s +:+ " - " +:+ name)
    as Hok.
  { intros id name Hup Hname. simpl.
    split; [by apply isupper_nonempty|]. split; [done|]. split; [done|].
    by exists name. }
  assert (Forall (λ s,
            session_id s ≠ "" ∧ isupper (session_id s) = true
            ∧ session_url s =
              "https://proceedings.jacow.org/srf2019/html/"
                +:+ Str.lower (session_id s) +:+ ".htm"
            ∧ ∃ name, name ≠ ""
                      ∧ session_name s = session_id s +:+ " - " +:+ name)
            (sessions_of_lines session_of (content_lines (get_text soup))))
    as Htext.
  { destruct (sessions_of_lines_spec_all session_of
                (content_lines (get_text soup))) as [Hall _].
    eapply Forall_impl; [exact Hall|].
    intros s (pre & id & name & post & Hlines & -> & _ & Hup).
    apply Hok; [done|].
    apply (content_lines_nonempty (get_text soup)).
    rewrite Hlines. rewrite elem_of_app. right.
    apply list_elem_of_further, list_elem_of_here. }
  unfold sessions_of_soup.
  destruct (table_rows soup) as [rows|]; [|exact Htext].
  destruct (rows ≫= session_of_row) as [|s0 ss] eqn:Hrows; [exact Htext|].
  rewrite <- Hrows. apply Forall_forall. intros s Hs.
  apply list_elem_of_bind in Hs as (cols & Hs & _).
  destruct cols as [|col0 [|col1 cols]]; simpl in Hs;
    try by apply elem_of_nil in Hs.
  destruct (Str.truthy (Str.strip col0) && Str.truthy (Str.strip col1)
            && isupper (Str.strip col0)) eqn:Hcond;
    [|by apply elem_of_nil in Hs].
  apply list_elem_of_singleton in Hs as ->.
  apply andb_true_iff in Hcond as [[_ Hname]%andb_true_iff Hup].
  apply Hok; [done|]. apply truthy_iff. by rewrite Hname.
Qed.

(** ** The final report *)

Lemma sum_app xs ys : sum (xs ++ ys) = (sum xs + sum ys)%Z.
Proof.
  unfold sum. rewrite foldl_app.
  generalize (foldl Z.add 0%Z xs). intros a.
  revert a. induction ys as [|y ys IH]; intros a; simpl; [lia|].
  rewrite IH, (IH (0 + y)%Z). lia.
Qed.

(** X19. Each total of the final report is a recount over the papers of
    all sessions taken together: the number of papers, in all sessions,
    whose flag for the resource type is true; so no total exceeds the
    number of papers. *)
Theorem final_totals_are_recounts
    (flag : paper_info → bool) (all_sessions_data : list session_entry) :
  total_available flag all_sessions_data
  = Z.of_nat (length (filter (λ p, flag p = true)
                        (all_sessions_data ≫= entry_papers)))
  ∧ (0 ≤ total_available flag all_sessions_data
     ≤ Z.of_nat (length (all_sessions_data ≫= entry_papers)))%Z.
Proof.
  assert (total_available flag all_sessions_data
          = Z.of_nat (length (filter (λ p, flag p = true)
                                (all_sessions_data ≫= entry_papers)))) as ->.
  { unfold total_available.
    induction all_sessions_data as [|sd rest IH]; [done|].
    rewrite fmap_cons, bind_cons, filter_app, length_app, Nat2Z.inj_add.
    rewrite <- IH, <- count_available_recount.
    apply (sum_app [_]). }
  split; [done|]. split; [lia|].
  apply inj_le, length_filter.
Qed.

(** X20. A [paper_info] dictionary has no key [pdf_available]: the paper
    list of the final report shows the icon [---] for every paper, never
    [PDF], and [analyze_results.py] counts no available PDF in any list
    of such dictionaries. *)
Theorem reports_never_show_pdf (infos : list paper_info) :
  Forall (λ info, paper_dict info !! "pdf_available" = None
                  ∧ pdf_icon (paper_dict info) = "---") infos
  ∧ available_pdfs (paper_dict <$> infos) = 0%Z.
Proof.
  assert (∀ info, paper_dict info !! "pdf_available" = None) as Hkey.
  { intros info. unfold paper_dict.
    repeat (rewrite lookup_insert_ne by (intros [=])). apply lookup_empty. }
  assert (∀ info, get_flag (paper_dict info) "pdf_available" = false) as Hflag.
  { intros info. unfold get_flag. by rewrite Hkey. }
  split.
  - apply Forall_forall. intros info _. split; [done|].
    unfold pdf_icon. by rewrite Hflag.
  - unfold available_pdfs. rewrite sum_ones.
    induction infos as [|info infos IH]; [done|].
    rewrite fmap_cons, filter_cons_False; [exact IH|].
    rewrite Hflag. by intros [].
Qed.

(** ** Downloads *)

Section DownloadFacts.

Context {World : Type}.
Variable mkdir : list string → World → outcome unit * World.
Variable path_exists : list string → World → bool.
Variable get_stream : string → World → outcome response * World.
Variable parse_int : string → option Z.
Variable write_body : list string → response → World → outcome unit * World.
Variable output_dir : string.

Lemma download_single_file_counters url info session_name t
    (st : run_state World) :
  let result :=
    download_single_file mkdir path_exists get_stream parse_int write_body
      output_dir url info session_name t st in
  let s := run_stats st in
  let s' := run_stats result.2 in
  total_papers s' = total_papers s
  ∧ downloaded_presentations s' = downloaded_presentations s
  ∧ downloaded_papers s' = downloaded_papers s
  ∧ downloaded_posters s' = downloaded_posters s
  ∧ sessions_processed s' = sessions_processed s
  ∧ slept result.2 = slept st
  ∧ (if result.1 then errors s' = errors s
     else errors s' = errors s ∨ errors s' = (errors s + 1)%Z).
Proof.
  unfold download_single_file, download_failed.
  destruct (mkdir _ _) as [[[]|] w1]; [|simpl; repeat split; auto].
  destruct (path_exists _ w1); [simpl; repeat split; auto|].
  destruct (get_stream url w1) as [[r|] w2]; [|simpl; repeat split; auto].
  destruct (is_error_status _); [simpl; repeat split; auto|].
  destruct (match headers r !! "content-length" with
            | Some text => parse_int text
            | None => Some 0%Z
            end) as [n|]; [|simpl; repeat split; auto].
  destruct (bool_decide _ && bool_decide _); [simpl; repeat split; auto|].
  destruct (write_body _ r w2) as [[[]|] w3]; simpl; repeat split; auto.
Qed.

Lemma download_one_counters info session_name (st : run_state World) t :
  let s := run_stats st in
  let s' :=
    run_stats (download_one mkdir path_exists get_stream parse_int write_body
                 output_dir info session_name st t) in
  total_papers s' = total_papers s
  ∧ sessions_processed s' = sessions_processed s
  ∧ slept (download_one mkdir path_exists get_stream parse_int write_body
             output_dir info session_name st t) = slept st
  ∧ (∀ t', t' ≠ t → downloaded t' s' = downloaded t' s)
  ∧ (0 ≤ downloaded t s' - downloaded t s)%Z
  ∧ (0 ≤ errors s' - errors s)%Z
  ∧ ((downloaded t s' - downloaded t s) + (errors s' - errors s)
     ≤ if file_available t info then 1 else 0)%Z.
Proof.
  unfold download_one. cbn zeta.
  destruct (file_available t info).
  2:{ repeat split; auto; lia. }
  pose proof (download_single_file_counters (file_url t info) info
                session_name t st) as H.
  cbn zeta in H.
  destruct (download_single_file _ _ _ _ _ _ _ _ _ _ st) as [success st1].
  simpl in H. destruct H as (H1 & H2 & H3 & H4 & H5 & H6 & H7).
  destruct success.
  - destruct t; simpl; rewrite ?H1, ?H2, ?H3, ?H4, ?H5, ?H6, H7;
      repeat split; auto; try lia; intros []; done.
  - destruct t; simpl; rewrite ?H1, ?H2, ?H3, ?H4, ?H5, ?H6;
      repeat split; auto; try lia; intros []; done.
Qed.

Lemma download_files_counters info session_name (st : run_state World) :
  let st' :=
    download_files mkdir path_exists get_stream parse_int write_body
      output_dir info session_name st in
  let s := run_stats st in
  let s' := run_stats st' in
  total_papers s' = total_papers s
  ∧ sessions_processed s' = sessions_processed s
  ∧ slept st' = slept st
  ∧ (0 ≤ errors s' - errors s)%Z
  ∧ (∀ t, 0 ≤ downloaded t s' - downloaded t s
          ≤ if file_available t info then 1 else 0)%Z
  ∧ ((downloaded Presentation s' - downloaded Presentation s)
     + (downloaded Paper s' - downloaded Paper s)
     + (downloaded Poster s' - downloaded Poster s)
     + (errors s' - errors s)
     ≤ (if presentation_available info then 1 else 0)
       + (if paper_available info then 1 else 0)
       + (if poster_available info then 1 else 0))%Z.
Proof.
  unfold download_files. cbn [foldl]. cbn zeta.
  set (one := download_one mkdir path_exists get_stream parse_int write_body
                output_dir info session_name).
  pose proof (download_one_counters info session_name st Presentation)
    as (A1 & A2 & A3 & A4 & A5 & A6 & A7).
  fold one in A1, A2, A3, A4, A5, A6, A7.
  pose proof (download_one_counters info session_name
                (one st Presentation) Paper)
    as (B1 & B2 & B3 & B4 & B5 & B6 & B7).
  fold one in B1, B2, B3, B4, B5, B6, B7.
  pose proof (download_one_counters info session_name
                (one (one st Presentation) Paper) Poster)
    as (C1 & C2 & C3 & C4 & C5 & C6 & C7).
  fold one in C1, C2, C3, C4, C5, C6, C7.
  cbn zeta in *.
  pose proof (A4 Paper ltac:(done)). pose proof (A4 Poster ltac:(done)).
  pose proof (B4 Presentation ltac:(done)). pose proof (B4 Poster ltac:(done)).
  pose proof (C4 Presentation ltac:(done)). pose proof (C4 Paper ltac:(done)).
  simpl file_available in *.
  split; [congruence|]. split; [congruence|]. split; [congruence|].
  split; [lia|]. split; [|lia].
  intros []; simpl file_available; lia.
Qed.

(** X21. Downloading the files of one paper counts each of its three
    files at most once, and only a file whose flag says available: an
    available file is counted as a download, or as an error, or (a body
    of fewer than 100 bytes) as neither.  The counters of papers and
    sessions and the clock are left alone. *)
Theorem download_files_accounting
    (info : paper_info) (session_name : string) (st : run_state World) :
  let st' :=
    download_files mkdir path_exists get_stream parse_int write_body
      output_dir info session_name st in
  let s := run_stats st in
  let s' := run_stats st' in
  total_papers s' = total_papers s
  ∧ sessions_processed s' = sessions_processed s
  ∧ slept st' = slept st
  ∧ (0 ≤ errors s' - errors s)%Z
  ∧ (∀ t, 0 ≤ downloaded t s' - downloaded t s
          ≤ if file_available t info then 1 else 0)%Z
  ∧ ((downloaded Presentation s' - downloaded Presentation s)
     + (downloaded Paper s' - downloaded Paper s)
     + (downloaded Poster s' - downloaded Poster s)
     + (errors s' - errors s)
     ≤ (if presentation_available info then 1 else 0)
       + (if paper_available info then 1 else 0)
       + (if poster_available info then 1 else 0))%Z.
Proof. apply download_files_counters. Qed.

(** X22. After the files of all papers of a session have been handled,
    each download counter has grown by no more than the number of papers
    of the session whose flag for that kind is true, the number the
    session summary reports as available; one second of rest is taken
    per paper. *)
Theorem downloads_never_exceed_available
    (papers : list paper_info) (session_name : string)
    (st : run_state World) (t : file_type) :
  let st' :=
    download_session mkdir path_exists get_stream parse_int write_body
      output_dir papers session_name st in
  (0 ≤ downloaded t (run_stats st') - downloaded t (run_stats st)
   ≤ count_available (file_available t) papers)%Z
  ∧ slept st' = slept st ++ replicate (length papers) 1%Z
  ∧ total_papers (run_stats st') = total_papers (run_stats st)
  ∧ sessions_processed (run_stats st') = sessions_processed (run_stats st).
Proof.
  cbn zeta. unfold download_session. rewrite count_available_recount.
  revert st. induction papers as [|info papers IH]; intros st.
  - simpl. rewrite app_nil_r. repeat split; auto; lia.
  - cbn [foldl].
    set (st1 := sleep 1 (download_files _ _ _ _ _ _ info session_name st)).
    destruct (IH st1) as (H1 & H2 & H3 & H4).
    destruct (download_files_counters info session_name st)
      as (D1 & D2 & D3 & _ & D5 & _).
    specialize (D5 t). cbn zeta in *.
    assert (run_stats st1
            = run_stats (download_files mkdir path_exists get_stream
                           parse_int write_body output_dir info
                           session_name st)) as Hs by done.
    assert (slept st1 = slept st ++ [1%Z]) as Hsl.
    { subst st1. unfold sleep. cbn [slept]. by rewrite D3. }
    rewrite H2, H3, H4, Hsl, Hs, D1, D2, <- app_assoc.
    split; [|done].
    rewrite Hs in H1. rewrite filter_cons.
    destruct (file_available t info) eqn:Ha.
    + rewrite decide_True by done. simpl length. lia.
    + rewrite decide_False by (by intros ?). lia.
Qed.

End DownloadFacts.
